(** * Can-Eat-Not: a shallow embedding of the workflow core

    The development follows the Python sources file by file:

    - [Text]: the string builtins the code relies on ([str.strip],
      [str.lower], [x in s]) and the character classes of [re];
    - [Py]: dynamically typed values, [int()], [float()], [round()];
    - [F64], [Json]: binary64 floats and the decoded values of a catalogue;
    - the session record of [state.py] and the update a node returns;
    - [nodes.py]: [human_node], [determine_next_agent], the node wrappers;
    - [main.py]: the conditional edges of [build_graph] and the run of
      the compiled graph, one step after the other;
    - [agents/trainer.py], [agents/nutritionist.py];
    - [tools/food_db.py].

    Conventions of the model.
    - Text is ASCII: a character with code 128 or more is neither
      whitespace, digit nor word character, and [lower] leaves it alone.
    - In the profile and in the metrics of the nutritionist a Python
      float is a rational ([Q]): [nan] and the infinities are not
      represented, no conversion overflows, and the arithmetic is exact,
      with round-half-even.
    - In [tools/food_db.py], whose result is a rounded product, a float is
      an IEEE 754 binary64 number ([F64]), with the conversions, the
      product and the rounding of the interpreter and the exceptions they
      raise.
    - A run of digits is converted to an integer whatever its length: the
      cap the interpreter puts on the length of such a run (4300 digits
      unless changed with [sys.set_int_max_str_digits]) is left out.
    - What the outside world supplies (the line typed by the user, the
      clock, the reply of the language model or its failure) is an
      explicit argument of the function that consumes it. *)

From Stdlib Require Import ZArith QArith Qround List String Ascii Bool Lia.
From Stdlib Require Import SpecFloat.
From Stdlib Require Import DecimalString.
Import ListNotations.

Local Open Scope Z_scope.

(* ================================================================== *)
(** * Text: string builtins *)
(* ================================================================== *)

Module Text.

(** [str.isspace] on ASCII: TAB..CR, FS..US and the blank. *)
Definition is_space (c : ascii) : bool :=
  let n := nat_of_ascii c in
  (Nat.leb 9 n && Nat.leb n 13) || (Nat.leb 28 n && Nat.leb n 32).

(** [\d] restricted to ASCII. *)
Definition is_digit (c : ascii) : bool :=
  let n := nat_of_ascii c in Nat.leb 48 n && Nat.leb n 57.

Definition is_upper (c : ascii) : bool :=
  let n := nat_of_ascii c in Nat.leb 65 n && Nat.leb n 90.

Definition is_lower (c : ascii) : bool :=
  let n := nat_of_ascii c in Nat.leb 97 n && Nat.leb n 122.

(** [\w] restricted to ASCII: letters, digits and the underscore. *)
Definition is_word (c : ascii) : bool :=
  is_digit c || is_upper c || is_lower c || Nat.eqb (nat_of_ascii c) 95.

Definition lower_ascii (c : ascii) : ascii :=
  if is_upper c then ascii_of_nat (nat_of_ascii c + 32) else c.

(** [s.lower()] *)
Fixpoint lower (s : string) : string :=
  match s with
  | EmptyString => EmptyString
  | String c r => String (lower_ascii c) (lower r)
  end.

Fixpoint lstrip (s : string) : string :=
  match s with
  | EmptyString => EmptyString
  | String c r => if is_space c then lstrip r else s
  end.

Fixpoint rstrip (s : string) : string :=
  match s with
  | EmptyString => EmptyString
  | String c r =>
      match rstrip r with
      | EmptyString => if is_space c then EmptyString else String c EmptyString
      | r' => String c r'
      end
  end.

(** [s.strip()] *)
Definition strip (s : string) : string := rstrip (lstrip s).

(** [s.startswith(p)] *)
Fixpoint starts_with (p s : string) : bool :=
  match p, s with
  | EmptyString, _ => true
  | String _ _, EmptyString => false
  | String a p', String b s' => Ascii.eqb a b && starts_with p' s'
  end.

(** [p in s] for two strings: [p] occurs in [s] as a contiguous run. *)
Fixpoint contains (p s : string) : bool :=
  starts_with p s ||
  match s with
  | EmptyString => false
  | String _ s' => contains p s'
  end.

(** [x in l] for a list (or set) of strings. *)
Definition str_in (x : string) (l : list string) : bool :=
  existsb (String.eqb x) l.

(** Truth value of a string: the empty string is false. *)
Definition str_truthy (s : string) : bool :=
  match s with EmptyString => false | _ => true end.

(** Truth value of an [Optional[str]]: [None] and [""] are false. *)
Definition opt_truthy (o : option string) : bool :=
  match o with None => false | Some s => str_truthy s end.

(** The declarative reading of [p in s]. *)
Definition occurs_in (p s : string) : Prop :=
  exists a b : string, s = (a ++ p ++ b)%string.

(** [str(n)] for an integer. *)
Definition show_Z (z : Z) : string := NilZero.string_of_int (Z.to_int z).

End Text.

(* ================================================================== *)
(** * Py: dynamically typed values and numeric builtins *)
(* ================================================================== *)

Module Py.

(** The JSON scalars a profile entry can hold ([Dict[str, Any]]). *)
Inductive pyval : Type :=
| PNone
| PBool (b : bool)
| PInt (z : Z)
| PFloat (q : Q)
| PStr (s : string).

(** The exceptions the code names or lets escape. *)
Inductive exn : Type :=
| KeyError | ValueError | TypeError | ZeroDivisionError | OverflowError.

Inductive outcome (A : Type) : Type :=
| Ok (a : A)
| Raise (e : exn).
Arguments Ok {A} a.
Arguments Raise {A} e.

Definition bind {A B} (m : outcome A) (k : A -> outcome B) : outcome B :=
  match m with
  | Ok a => k a
  | Raise e => Raise e
  end.

(** [round(x)]: nearest integer, ties to the even one. *)
Definition round (q : Q) : Z :=
  let f := Qfloor q in
  match Qcompare (q - inject_Z f) (1 # 2) with
  | Lt => f
  | Gt => f + 1
  | Eq => if Z.even f then f else f + 1
  end.

(** [round(x, n)]: rounded at the [n]-th decimal. *)
Definition round_to (q : Q) (n : nat) : Q :=
  let p := inject_Z (10 ^ Z.of_nat n) in
  Qred (inject_Z (round (q * p)) / p).

(** [int(x)] on a float truncates toward zero. *)
Definition trunc (q : Q) : Z :=
  if Qle_bool 0 q then Qfloor q else Qceiling q.

Fixpoint digits_value (acc : Z) (s : string) : option Z :=
  match s with
  | EmptyString => Some acc
  | String c r =>
      if Text.is_digit c
      then digits_value (10 * acc + Z.of_nat (nat_of_ascii c - 48)) r
      else None
  end.

(** A non-empty run of decimal digits. *)
Definition nat_literal (s : string) : option Z :=
  match s with
  | EmptyString => None
  | _ => digits_value 0 s
  end.

(** An optional sign in front of [body]. *)
Definition signed {A} (body : string -> option A) (neg : A -> A)
    (s : string) : option A :=
  match s with
  | String "-"%char r => option_map neg (body r)
  | String "+"%char r => body r
  | _ => body s
  end.

(** [int(s)] for a string: blanks around an optionally signed run of
    digits (digit grouping with underscores is not modelled). *)
Definition int_of_str (s : string) : option Z :=
  signed nat_literal Z.opp (Text.strip s).

Fixpoint split_dot (s : string) : string * option string :=
  match s with
  | EmptyString => (EmptyString, None)
  | String "."%char r => (EmptyString, Some r)
  | String c r => let '(a, b) := split_dot r in (String c a, b)
  end.

Definition digits_or_zero (s : string) : option Z := digits_value 0 s.

(** An unsigned decimal literal: [12], [12.5], [12.], [.5]. *)
Definition decimal_literal (s : string) : option Q :=
  match split_dot s with
  | (i, None) => option_map inject_Z (nat_literal i)
  | (i, Some f) =>
      match i, f with
      | EmptyString, EmptyString => None
      | _, _ =>
          match digits_or_zero i, digits_or_zero f with
          | Some a, Some b =>
              Some (Qred (inject_Z a
                          + inject_Z b / inject_Z (10 ^ Z.of_nat (String.length f))))
          | _, _ => None
          end
      end
  end.

(** [float(s)] for a string: blanks around an optionally signed decimal
    literal (exponents, [inf] and [nan] are not modelled). *)
Definition float_of_str (s : string) : option Q :=
  signed decimal_literal Qopp (Text.strip s).

(** [int(v)] *)
Definition int (v : pyval) : outcome Z :=
  match v with
  | PNone => Raise TypeError
  | PBool b => Ok (Z.b2z b)
  | PInt z => Ok z
  | PFloat q => Ok (trunc q)
  | PStr s => match int_of_str s with Some z => Ok z | None => Raise ValueError end
  end.

(** [float(v)] *)
Definition float (v : pyval) : outcome Q :=
  match v with
  | PNone => Raise TypeError
  | PBool b => Ok (inject_Z (Z.b2z b))
  | PInt z => Ok (inject_Z z)
  | PFloat q => Ok q
  | PStr s => match float_of_str s with Some q => Ok q | None => Raise ValueError end
  end.

(** Text of a float inside a message.  Only the shape of messages matters
    to the workflow, so a float is printed as a fraction. *)
Definition show_Q (q : Q) : string :=
  (Text.show_Z (Qnum (Qred q)) ++ "/" ++ Text.show_Z (Zpos (Qden (Qred q))))%string.

(** [str(v)] *)
Definition str (v : pyval) : string :=
  match v with
  | PNone => "None"
  | PBool true => "True"
  | PBool false => "False"
  | PInt z => Text.show_Z z
  | PFloat q => show_Q q
  | PStr s => s
  end.

End Py.

(* ================================================================== *)
(** * F64: Python floats as IEEE 754 binary64 numbers *)
(* ================================================================== *)

Module F64.

(** A double: zero, infinity, NaN, or [(-1)^s * m * 2^e]. *)
Definition t : Type := spec_float.

Definition prec : Z := 53.
Definition emax : Z := 1024.

(** The double nearest to an integer, ties to even; from [2^1024 - 2^970]
    on the result is an infinity. *)
Definition of_Z (z : Z) : t := binary_normalize prec emax z 0 false.

(** [float(n)] for an integer, and the conversion of the integer operand
    of a mixed operation: [OverflowError] when no finite double is
    nearest. *)
Definition of_int (z : Z) : Py.outcome t :=
  match of_Z z with
  | S754_infinity _ => Py.Raise Py.OverflowError
  | x => Py.Ok x
  end.

(** [x * y] on two floats; it never raises. *)
Definition mul (x y : t) : t := SFmul prec emax x y.

(** [n * x] for an integer [n] and a float [x]. *)
Definition int_mul (n : Z) (x : t) : Py.outcome t :=
  Py.bind (of_int n) (fun fn => Py.Ok (mul fn x)).

(** The integer nearest to [m * 2^e], ties to even, for [0 <= m]. *)
Definition nearest_even (m e : Z) : Z :=
  match e with
  | Zneg p =>
      let d := 2 ^ Zpos p in
      let q := m / d in
      match 2 * (m mod d) ?= d with
      | Lt => q
      | Gt => q + 1
      | Eq => if Z.even q then q else q + 1
      end
  | _ => m * 2 ^ e
  end.

(** [round(x)] for a float: an integer; [OverflowError] on an infinity
    and [ValueError] on NaN. *)
Definition round (x : t) : Py.outcome Z :=
  match x with
  | S754_zero _ => Py.Ok 0
  | S754_infinity _ => Py.Raise Py.OverflowError
  | S754_nan => Py.Raise Py.ValueError
  | S754_finite s m e => Py.Ok (cond_Zopp s (nearest_even (Zpos m) e))
  end.

(** The rational a finite double stands for (zero for the others). *)
Definition to_Q (x : t) : Q :=
  match x with
  | S754_finite s m e => (inject_Z (cond_Zopp s (Zpos m)) * 2 ^ e)%Q
  | _ => 0%Q
  end.

(** The double nearest to [m * 10^e], ties to even, with the sign [neg];
    too large a value gives an infinity, too small a one a zero. *)
Definition of_decimal (neg : bool) (m e : Z) : t :=
  match m, e with
  | Zpos p, Zneg k =>
      let '(q, e', l) := SFdiv_core_binary prec emax (Zpos p) 0 (10 ^ Zpos k) 0 in
      binary_round_aux prec emax neg q e' l
  | Zpos p, _ => binary_normalize prec emax (cond_Zopp neg (Zpos p * 10 ^ e)) 0 neg
  | _, _ => S754_zero neg
  end.

(** The blanks [float()] skips around an ASCII string: TAB..CR and the
    space. *)
Definition is_blank (c : ascii) : bool :=
  let n := nat_of_ascii c in
  (Nat.leb 9 n && Nat.leb n 13) || Nat.eqb n 32.

Fixpoint lstrip (s : string) : string :=
  match s with
  | EmptyString => EmptyString
  | String c r => if is_blank c then lstrip r else s
  end.

Fixpoint rstrip (s : string) : string :=
  match s with
  | EmptyString => EmptyString
  | String c r =>
      match rstrip r with
      | EmptyString => if is_blank c then EmptyString else String c EmptyString
      | r' => String c r'
      end
  end.

Definition digit (c : ascii) : Z := Z.of_nat (nat_of_ascii c - 48).

(** What follows the first digit of a [digitpart]: digits, each of them
    possibly after one underscore.  The result is the value read so far,
    the number of digits read and the text left. *)
Fixpoint digitpart_rest (acc : Z) (n : nat) (s : string) : Z * nat * string :=
  match s with
  | String c r =>
      if Text.is_digit c then digitpart_rest (10 * acc + digit c) (S n) r
      else if Ascii.eqb c "_" then
        match r with
        | String d r' =>
            if Text.is_digit d
            then digitpart_rest (10 * acc + digit d) (S n) r'
            else (acc, n, s)
        | EmptyString => (acc, n, s)
        end
      else (acc, n, s)
  | EmptyString => (acc, n, s)
  end.

(** [digitpart ::= digit (["_"] digit)*], read after the digits that gave
    [acc]. *)
Definition digitpart (acc : Z) (s : string) : option (Z * nat * string) :=
  match s with
  | String c r =>
      if Text.is_digit c then Some (digitpart_rest (10 * acc + digit c) 1 r)
      else None
  | EmptyString => None
  end.

(** [number ::= [digitpart] "." digitpart | digitpart ["."]]: all the
    digits as one integer, the number of digits after the point, and the
    text left. *)
Definition number (s : string) : option (Z * nat * string) :=
  match digitpart 0 s with
  | Some (i, _, String "."%char r) =>
      match digitpart i r with
      | Some (m, k, r') => Some (m, k, r')
      | None => Some (i, O, r)
      end
  | Some (i, _, r) => Some (i, O, r)
  | None =>
      match s with
      | String "."%char r => digitpart 0 r
      | _ => None
      end
  end.

Definition split_sign (s : string) : bool * string :=
  match s with
  | String "-"%char r => (true, r)
  | String "+"%char r => (false, r)
  | _ => (false, s)
  end.

(** [[exponent]] up to the end of the text:
    [exponent ::= ("e" | "E") [sign] digitpart]. *)
Definition exponent (s : string) : option Z :=
  match s with
  | EmptyString => Some 0
  | String c r =>
      if Ascii.eqb c "e" || Ascii.eqb c "E" then
        let '(neg, r') := split_sign r in
        match digitpart 0 r' with
        | Some (x, _, EmptyString) => Some (cond_Zopp neg x)
        | _ => None
        end
      else None
  end.

(** [float(s)] for a string: blanks, an optional sign, then [inf],
    [infinity] or [nan] in any case, or a decimal number with an optional
    exponent, correctly rounded. *)
Definition of_str (s : string) : option t :=
  let '(neg, body) := split_sign (rstrip (lstrip s)) in
  let word := Text.lower body in
  if String.eqb word "inf" || String.eqb word "infinity" then
    Some (S754_infinity neg)
  else if String.eqb word "nan" then Some S754_nan
  else
    match number body with
    | Some (m, k, r) =>
        match exponent r with
        | Some x => Some (of_decimal neg m (x - Z.of_nat k))
        | None => None
        end
    | None => None
    end.

End F64.

(* ================================================================== *)
(** * Json: the values of a decoded catalogue *)
(* ================================================================== *)

Module Json.

(** What [json.loads] can put under a key, as far as [float()] tells the
    values apart: an array or an object carries no content here. *)
Inductive value : Type :=
| JNull
| JBool (b : bool)
| JInt (z : Z)
| JFloat (x : F64.t)
| JStr (s : string)
| JArray
| JObject.

(** [float(v)] *)
Definition float (v : value) : Py.outcome F64.t :=
  match v with
  | JNull | JArray | JObject => Py.Raise Py.TypeError
  | JBool b => Py.Ok (F64.of_Z (Z.b2z b))
  | JInt z => F64.of_int z
  | JFloat x => Py.Ok x
  | JStr s =>
      match F64.of_str s with
      | Some x => Py.Ok x
      | None => Py.Raise Py.ValueError
      end
  end.

End Json.

(* ================================================================== *)
(** * state.py: the session record *)
(* ================================================================== *)

Record Message : Type := {
  role : string;
  content : string;
  timestamp : string
}.

(** [UserProfile]: a dictionary over the six profile keys; [None] is an
    absent key.  The values are whatever was stored ([Dict[str, Any]]). *)
Record UserProfile : Type := {
  age : option Py.pyval;
  sex : option Py.pyval;
  height_cm : option Py.pyval;
  weight_kg : option Py.pyval;
  activity_level : option Py.pyval;
  first_meal : option Py.pyval
}.

Record Macros : Type := {
  protein_g : Q;
  carbs_g : Q;
  fat_g : Q
}.

Record NutritionProfile : Type := {
  bmi : Q;
  bmi_class : string;
  bmr : Q;
  tdee : Q;
  target_calories : Z;
  recommended_macros : Macros;
  health_assessment : string
}.

Record FoodAnalysis : Type := {
  food_item : string;
  quantity : string;
  calories_per_unit : Q;
  total_calories : Q;
  macros : list (string * Q);
  nutritional_notes : string;
  health_impact : string
}.

(** [State].  For [nutrition_profile] and [food_analysis] the value [None]
    stands for the empty dictionary [{}] of the initial state, [Some] for
    a filled one; for [food_request] it is Python's [None]. *)
Record State : Type := {
  messages : list Message;
  current_user_input : string;
  awaiting_user_input : bool;
  user_profile : UserProfile;
  profile_complete : bool;
  nutrition_profile : option NutritionProfile;
  food_analysis : option FoodAnalysis;
  current_phase : string;
  next_agent : string;
  food_request : option string;
  food_request_pending : bool;
  awaiting_food_request : bool;
  final_recommendation : string;
  can_eat_verdict : bool;
  session_complete : bool
}.

(** The dictionary a node returns: one optional entry per key of [State];
    [None] is a key the node did not return. *)
Record Update : Type := {
  u_messages : option (list Message);
  u_current_user_input : option string;
  u_awaiting_user_input : option bool;
  u_user_profile : option UserProfile;
  u_profile_complete : option bool;
  u_nutrition_profile : option (option NutritionProfile);
  u_food_analysis : option (option FoodAnalysis);
  u_current_phase : option string;
  u_next_agent : option string;
  u_food_request : option (option string);
  u_food_request_pending : option bool;
  u_awaiting_food_request : option bool;
  u_final_recommendation : option string;
  u_can_eat_verdict : option bool;
  u_session_complete : option bool
}.

Definition empty_profile : UserProfile :=
  {| age := None; sex := None; height_cm := None; weight_kg := None;
     activity_level := None; first_meal := None |}.

(** [bool(profile)]: a dictionary is true when it has a key. *)
Definition profile_truthy (p : UserProfile) : bool :=
  match age p, sex p, height_cm p, weight_kg p, activity_level p, first_meal p with
  | None, None, None, None, None, None => false
  | _, _, _, _, _, _ => true
  end.

Definition is_some {A} (o : option A) : bool :=
  match o with Some _ => true | None => false end.

Definition or_else {A} (o : option A) (d : A) : A :=
  match o with Some a => a | None => d end.

(** The state update of the graph runtime.  [State] declares no reducer on
    any key (no [Annotated[..., add]]), so each key a node returns
    replaces the stored value, [messages] included; the other keys keep
    their value. *)
Definition merge (s : State) (u : Update) : State :=
  {| messages := or_else (u_messages u) (messages s);
     current_user_input := or_else (u_current_user_input u) (current_user_input s);
     awaiting_user_input := or_else (u_awaiting_user_input u) (awaiting_user_input s);
     user_profile := or_else (u_user_profile u) (user_profile s);
     profile_complete := or_else (u_profile_complete u) (profile_complete s);
     nutrition_profile := or_else (u_nutrition_profile u) (nutrition_profile s);
     food_analysis := or_else (u_food_analysis u) (food_analysis s);
     current_phase := or_else (u_current_phase u) (current_phase s);
     next_agent := or_else (u_next_agent u) (next_agent s);
     food_request := or_else (u_food_request u) (food_request s);
     food_request_pending := or_else (u_food_request_pending u) (food_request_pending s);
     awaiting_food_request := or_else (u_awaiting_food_request u) (awaiting_food_request s);
     final_recommendation := or_else (u_final_recommendation u) (final_recommendation s);
     can_eat_verdict := or_else (u_can_eat_verdict u) (can_eat_verdict s);
     session_complete := or_else (u_session_complete u) (session_complete s) |}.

(** The merge the specification describes: as [merge], except that the
    returned [messages] are concatenated onto the stored ones. *)
Definition merge_concat (s : State) (u : Update) : State :=
  {| messages := messages s ++ or_else (u_messages u) [];
     current_user_input := or_else (u_current_user_input u) (current_user_input s);
     awaiting_user_input := or_else (u_awaiting_user_input u) (awaiting_user_input s);
     user_profile := or_else (u_user_profile u) (user_profile s);
     profile_complete := or_else (u_profile_complete u) (profile_complete s);
     nutrition_profile := or_else (u_nutrition_profile u) (nutrition_profile s);
     food_analysis := or_else (u_food_analysis u) (food_analysis s);
     current_phase := or_else (u_current_phase u) (current_phase s);
     next_agent := or_else (u_next_agent u) (next_agent s);
     food_request := or_else (u_food_request u) (food_request s);
     food_request_pending := or_else (u_food_request_pending u) (food_request_pending s);
     awaiting_food_request := or_else (u_awaiting_food_request u) (awaiting_food_request s);
     final_recommendation := or_else (u_final_recommendation u) (final_recommendation s);
     can_eat_verdict := or_else (u_can_eat_verdict u) (can_eat_verdict s);
     session_complete := or_else (u_session_complete u) (session_complete s) |}.

(** [initial_state] of [main]. *)
Definition initial_state : State :=
  {| messages := [];
     current_user_input := "";
     awaiting_user_input := false;
     user_profile := empty_profile;
     profile_complete := false;
     nutrition_profile := None;
     food_analysis := None;
     current_phase := "greeting";
     next_agent := "trainer";
     food_request := None;
     food_request_pending := false;
     awaiting_food_request := false;
     final_recommendation := "";
     can_eat_verdict := false;
     session_complete := false |}.

(* ================================================================== *)
(** * nodes.py: the suspension boundary and the routing policy *)
(* ================================================================== *)

Definition exit_tokens : list string := ["exit"; "quit"; ":q"; "bye"]%string.

Definition consumption_phrases : list string :=
  ["i want to eat"; "can i eat"; "i'm eating"; "eating"; "i'll eat";
   "let me eat"; "should i eat"; "is it ok to eat"; "can eat";
   "want to eat"]%string.

Definition specific_foods : list string :=
  ["apple"; "banana"; "toast"; "cappuccino"; "cheese"; "ham"; "kfc";
   "pizza"; "burger"; "chicken"]%string.

Definition numerals : list string :=
  ["1"; "2"; "3"; "4"; "5"; "one"; "two"; "three"]%string.

(** [any(x in text for x in words)] *)
Definition any_in (words : list string) (text : string) : bool :=
  existsb (fun w => Text.contains w text) words.

Definition has_consumption_intent (user_lower : string) : bool :=
  any_in consumption_phrases user_lower.

Definition has_specific_food (user_lower : string) : bool :=
  any_in specific_foods user_lower.

(** [any(f"{num} {food}" in user_lower for num in ... for food in ...)] *)
Definition has_quantity_food (user_lower : string) : bool :=
  existsb (fun num =>
    existsb (fun food => Text.contains (num ++ " " ++ food)%string user_lower)
            specific_foods)
    numerals.

Definition is_food_request (user_input : string) : bool :=
  let user_lower := Text.lower user_input in
  (has_consumption_intent user_lower && has_specific_food user_lower)
  || has_quantity_food user_lower.

(** [human_node].  [line] is what [input] returned and [now] the clock
    reading used for the time stamp. *)
Definition human_node (state : State) (line now : string) : Update :=
  let user_input := Text.strip line in
  if Text.str_in (Text.lower user_input) exit_tokens then
    {| u_messages := None;
       u_current_user_input := Some user_input;
       u_awaiting_user_input := Some false;
       u_user_profile := None; u_profile_complete := None;
       u_nutrition_profile := None; u_food_analysis := None;
       u_current_phase := None; u_next_agent := None;
       u_food_request := None; u_food_request_pending := None;
       u_awaiting_food_request := None;
       u_final_recommendation := None; u_can_eat_verdict := None;
       u_session_complete := Some true |}
  else
    let messages' :=
      messages state
      ++ [{| role := "user"; content := user_input; timestamp := now |}] in
    let is_req := is_food_request user_input in
    {| u_messages := Some messages';
       u_current_user_input := Some user_input;
       u_awaiting_user_input := Some false;
       u_user_profile := None; u_profile_complete := None;
       u_nutrition_profile := None; u_food_analysis := None;
       u_current_phase := None; u_next_agent := None;
       u_food_request :=
         Some (if is_req && negb (Text.opt_truthy (food_request state))
               then Some user_input
               else food_request state);
       u_food_request_pending := Some (is_req && profile_complete state);
       u_awaiting_food_request := None;
       u_final_recommendation := None; u_can_eat_verdict := None;
       u_session_complete := None |}.

(** The node names of the graph. *)
Inductive Node : Type :=
| Human | Trainer | Nutritionist | FoodSpecialist | Completion | END.

Definition node_name (n : Node) : string :=
  match n with
  | Human => "human"
  | Trainer => "trainer"
  | Nutritionist => "nutritionist"
  | FoodSpecialist => "food_specialist"
  | Completion => "completion"
  | END => "__end__"
  end.

Inductive Status : Type := complete | continue.

Definition check_session_status (state : State) : Status :=
  if session_complete state then complete else continue.

Definition meal_planning_keywords : list string :=
  ["meal plan"; "diet plan"; "nutrition plan"; "what should i eat";
   "meal ideas"; "diet advice"]%string.

Definition is_meal_planning_request (state : State) : bool :=
  any_in meal_planning_keywords (Text.lower (current_user_input state)).

(** [determine_next_agent]: the guards in source order. *)
Definition determine_next_agent (state : State) : Node :=
  let profile_complete := profile_complete state in
  let food_request := Text.opt_truthy (food_request state) in
  let has_nutrition_profile := is_some (nutrition_profile state) in
  let has_food_analysis := is_some (food_analysis state) in
  let awaiting_food_request := awaiting_food_request state in
  if negb profile_complete then Trainer
  else if profile_complete && negb has_nutrition_profile then Nutritionist
  else if profile_complete && has_nutrition_profile
          && is_meal_planning_request state then Nutritionist
  else if profile_complete && has_nutrition_profile && negb food_request
          && negb awaiting_food_request then Trainer
  else if food_request && negb has_food_analysis then FoodSpecialist
  else if profile_complete && has_nutrition_profile && has_food_analysis
          && negb (Text.str_truthy (final_recommendation state)) then Trainer
  else Human.

(** The tests [determine_next_agent] and [trainer] make on the state. *)
Definition has_nutrition_profile (state : State) : bool :=
  is_some (nutrition_profile state).
Definition has_food_analysis (state : State) : bool :=
  is_some (food_analysis state).
Definition has_food_request (state : State) : bool :=
  Text.opt_truthy (food_request state).
Definition has_final_recommendation (state : State) : bool :=
  Text.str_truthy (final_recommendation state).

(* ================================================================== *)
(** * main.py: the conditional edges *)
(* ================================================================== *)

Definition after_trainer (state : State) : Node :=
  if session_complete state then Completion
  else if awaiting_user_input state then Human
  else determine_next_agent state.

Definition after_nutritionist (state : State) : Node :=
  determine_next_agent state.

Definition after_food_specialist (state : State) : Node :=
  determine_next_agent state.

Definition after_human (state : State) : Node :=
  match check_session_status state with
  | complete => Completion
  | continue => Trainer
  end.

(** The path maps given to [add_conditional_edges]: the targets a router
    may name on each edge. *)
Definition trainer_targets : list Node :=
  [Human; Nutritionist; FoodSpecialist; Trainer; Completion].
Definition nutritionist_targets : list Node := [Trainer; FoodSpecialist; Human].
Definition food_specialist_targets : list Node := [Trainer; Human].

(* ================================================================== *)
(** * agents/trainer.py *)
(* ================================================================== *)

(** The dictionary [trainer] returns to its node; also the shape of the
    JSON object the language model is asked to produce.  [None] is an
    absent key. *)
Record TrainerResult : Type := {
  r_message : option string;
  r_user_profile : option UserProfile;
  r_profile_complete : option bool;
  r_current_phase : option string;
  r_awaiting_user_input : option bool;
  r_awaiting_food_request : option bool;
  r_food_request : option string;
  r_final_recommendation : option string;
  r_can_eat_verdict : option bool
}.

(** [result["user_profile"] = p] *)
Definition set_user_profile (r : TrainerResult) (p : UserProfile) : TrainerResult :=
  {| r_message := r_message r; r_user_profile := Some p;
     r_profile_complete := r_profile_complete r;
     r_current_phase := r_current_phase r;
     r_awaiting_user_input := r_awaiting_user_input r;
     r_awaiting_food_request := r_awaiting_food_request r;
     r_food_request := r_food_request r;
     r_final_recommendation := r_final_recommendation r;
     r_can_eat_verdict := r_can_eat_verdict r |}.

Definition in_range (lo hi q : Q) : bool := Qle_bool lo q && Qle_bool q hi.

Definition validate_age (v : Py.pyval) : option Py.pyval :=
  match Py.int v with
  | Py.Ok a => if (1 <=? a) && (a <=? 120) then Some (Py.PInt a) else None
  | Py.Raise _ => None
  end.

Definition validate_choice (choices : list string) (v : Py.pyval) : option Py.pyval :=
  let s := Text.lower (Py.str v) in
  if Text.str_in s choices then Some (Py.PStr s) else None.

Definition validate_measure (lo hi : Q) (v : Py.pyval) : option Py.pyval :=
  match Py.float v with
  | Py.Ok x => if in_range lo hi x then Some (Py.PFloat x) else None
  | Py.Raise _ => None
  end.

Definition valid_levels : list string :=
  ["sedentary"; "light"; "moderate"; "active"; "very_active"]%string.

Definition validate_first_meal (v : Py.pyval) : option Py.pyval :=
  match v with
  | Py.PBool b => Some (Py.PBool b)
  | _ =>
      let first_meal_str := Text.lower (Py.str v) in
      if Text.str_in first_meal_str ["true"; "yes"; "y"; "first"]%string
      then Some (Py.PBool true)
      else if Text.str_in first_meal_str ["false"; "no"; "n"; "not first"]%string
      then Some (Py.PBool false)
      else None
  end.

Definition and_then {A B} (o : option A) (f : A -> option B) : option B :=
  match o with Some a => f a | None => None end.

(** [_validate_profile_data]: each key of [profile_data] is looked at on
    its own; a value that fails its check is left out of [cleaned]. *)
Definition _validate_profile_data (profile_data : UserProfile) : UserProfile :=
  {| age := and_then (age profile_data) validate_age;
     sex := and_then (sex profile_data) (validate_choice ["male"; "female"]%string);
     height_cm := and_then (height_cm profile_data) (validate_measure 80 250);
     weight_kg := and_then (weight_kg profile_data) (validate_measure 20 400);
     activity_level := and_then (activity_level profile_data) (validate_choice valid_levels);
     first_meal := and_then (first_meal profile_data) validate_first_meal |}.

Definition first_some {A} (a b : option A) : option A :=
  match a with Some _ => a | None => b end.

(** [{**current_profile, **cleaned_profile}] *)
Definition overlay (current cleaned : UserProfile) : UserProfile :=
  {| age := first_some (age cleaned) (age current);
     sex := first_some (sex cleaned) (sex current);
     height_cm := first_some (height_cm cleaned) (height_cm current);
     weight_kg := first_some (weight_kg cleaned) (weight_kg current);
     activity_level := first_some (activity_level cleaned) (activity_level current);
     first_meal := first_some (first_meal cleaned) (first_meal current) |}.

Definition required_fields : list string :=
  ["age"; "sex"; "height_cm"; "weight_kg"; "activity_level"; "first_meal"]%string.

(** [profile.get(field)] by key name. *)
Definition profile_get (p : UserProfile) (field : string) : option Py.pyval :=
  if String.eqb field "age" then age p
  else if String.eqb field "sex" then sex p
  else if String.eqb field "height_cm" then height_cm p
  else if String.eqb field "weight_kg" then weight_kg p
  else if String.eqb field "activity_level" then activity_level p
  else if String.eqb field "first_meal" then first_meal p
  else None.

(** [[field for field in required_fields if field not in current_profile]] *)
Definition missing_fields (current_profile : UserProfile) : list string :=
  filter (fun field => negb (is_some (profile_get current_profile field)))
         required_fields.

Definition fallback_question (next_field : option string) : string :=
  match next_field with
  | Some f =>
      if String.eqb f "sex" then "Are you male or female?"
      else if String.eqb f "height_cm" then "What's your height in cm?"
      else if String.eqb f "weight_kg" then "What's your current weight in kg?"
      else if String.eqb f "activity_level"
      then "How active are you? (sedentary/light/moderate/active/very_active)"
      else if String.eqb f "first_meal" then "Is this your first meal of the day?"
      else "Can you tell me more about yourself?"
  | None => "Can you tell me more about yourself?"
  end.

(** [_handle_profile_collection].  [llm] is the outcome of the [try]
    block up to [json.loads]: [Some result] is the decoded reply, [None]
    an exception (the call failed or the reply was not JSON). *)
Definition _handle_profile_collection (state : State) (user_input : string)
    (current_profile : UserProfile) (llm : option TrainerResult) : TrainerResult :=
  let missing := missing_fields current_profile in
  match llm with
  | Some result =>
      match r_user_profile result with
      | Some raw =>
          let cleaned_profile := _validate_profile_data raw in
          set_user_profile result (overlay current_profile cleaned_profile)
      | None => result
      end
  | None =>
      if negb (profile_truthy current_profile) then
        {| r_message := Some "Hi there! I'm your fitness trainer lah! Let's see if you can eat that food. First, tell me your age?"%string;
           r_user_profile := Some current_profile;
           r_profile_complete := Some false;
           r_current_phase := Some "profile_collection"%string;
           r_awaiting_user_input := Some true;
           r_awaiting_food_request := None; r_food_request := None;
           r_final_recommendation := None; r_can_eat_verdict := None |}
      else
        {| r_message := Some (fallback_question (hd_error missing));
           r_user_profile := Some current_profile;
           r_profile_complete := Some (Nat.eqb (List.length missing) 0);
           r_current_phase := Some "profile_collection"%string;
           r_awaiting_user_input := Some true;
           r_awaiting_food_request := None; r_food_request := None;
           r_final_recommendation := None; r_can_eat_verdict := None |}
  end.

(** [nutrition_profile.get("target_calories", 2000)] *)
Definition target_calories_or (np : option NutritionProfile) (d : Z) : Z :=
  match np with Some p => target_calories p | None => d end.

Definition _ask_for_food_request (state : State) : TrainerResult :=
  let target := target_calories_or (nutrition_profile state) 2000 in
  {| r_message := Some ("Perfect! Now I know your nutritional needs - you should aim for about "
                        ++ Text.show_Z target
                        ++ " calories per day for weight loss. What food would you like me to analyze for you? For example, you can ask about apples, bananas, cappuccino, toast, ham, or cheese!")%string;
     r_user_profile := None; r_profile_complete := None;
     r_current_phase := Some "food_request"%string;
     r_awaiting_user_input := Some true;
     r_awaiting_food_request := Some true;
     r_food_request := None;
     r_final_recommendation := None; r_can_eat_verdict := None |}.

(** [_generate_final_recommendation]; [llm] as above. *)
Definition _generate_final_recommendation (state : State)
    (llm : option TrainerResult) : TrainerResult :=
  match llm with
  | Some result => result
  | None =>
      let target_cals := target_calories_or (nutrition_profile state) 2000 in
      let food_cals :=
        match food_analysis state with Some fa => total_calories fa | None => 0%Q end in
      let can_eat := Qle_bool food_cals (inject_Z target_cals * (3 # 10)) in
      {| r_message := Some ("Based on your target of " ++ Text.show_Z target_cals
                            ++ " calories per day, this food has " ++ Py.show_Q food_cals
                            ++ " calories. "
                            ++ (if can_eat then "Can eat lah!" else "Better reduce a bit lor."))%string;
         r_user_profile := None; r_profile_complete := None;
         r_current_phase := None; r_awaiting_user_input := None;
         r_awaiting_food_request := None; r_food_request := None;
         r_final_recommendation :=
           Some ("Food analysis complete. "
                 ++ (if can_eat then "Approved" else "Not recommended")
                 ++ " based on calorie targets.")%string;
         r_can_eat_verdict := Some can_eat |}
  end.

(** The four behaviours of [trainer], in the order its guards test them. *)
Inductive TrainerBranch : Type :=
| FinalRecommendation | FoodRequestDetected | AskForFood | ProfileCollection.

Definition trainer_branch (state : State) : TrainerBranch :=
  let profile_complete := profile_complete state in
  let has_nutrition_profile := is_some (nutrition_profile state) in
  let has_food_analysis := is_some (food_analysis state) in
  let food_request := Text.opt_truthy (food_request state) in
  if profile_complete && has_nutrition_profile && has_food_analysis
     && negb (Text.str_truthy (final_recommendation state))
  then FinalRecommendation
  else if food_request && negb has_food_analysis then FoodRequestDetected
  else if profile_complete && has_nutrition_profile && negb food_request then AskForFood
  else ProfileCollection.

(** [trainer] *)
Definition trainer (state : State) (llm : option TrainerResult) : TrainerResult :=
  match trainer_branch state with
  | FinalRecommendation => _generate_final_recommendation state llm
  | FoodRequestDetected =>
      {| r_message := Some "Let me get our food specialist to analyze that for you!"%string;
         r_user_profile := None; r_profile_complete := None;
         r_current_phase := None;
         r_awaiting_user_input := Some false;
         r_awaiting_food_request := None; r_food_request := None;
         r_final_recommendation := None; r_can_eat_verdict := None |}
  | AskForFood => _ask_for_food_request state
  | ProfileCollection =>
      _handle_profile_collection state (current_user_input state)
        (user_profile state) llm
  end.

(* ================================================================== *)
(** * nodes.py: the node wrappers *)
(* ================================================================== *)

(** The copy of the history with the agent's message appended when the
    agent returned a non-empty one. *)
Definition with_message (state : State) (who : string) (msg : option string)
    (now : string) : list Message :=
  if Text.opt_truthy msg
  then messages state
       ++ [{| role := who; content := or_else msg ""%string; timestamp := now |}]
  else messages state.

Definition opt_profile_truthy (p : option UserProfile) : bool :=
  match p with Some q => profile_truthy q | None => false end.

(** [trainer_node]; [result] is what [trainer(state)] returned. *)
Definition trainer_node (state : State) (result : TrainerResult) (now : string)
    : Update :=
  let has_profile := opt_profile_truthy (r_user_profile result) in
  let has_final := Text.opt_truthy (r_final_recommendation result) in
  {| u_messages := Some (with_message state "trainer" (r_message result) now);
     u_current_user_input := None;
     u_awaiting_user_input := Some (or_else (r_awaiting_user_input result) false);
     u_user_profile := if has_profile then r_user_profile result else None;
     u_profile_complete :=
       if has_profile then Some (or_else (r_profile_complete result) false) else None;
     u_nutrition_profile := None;
     u_food_analysis := None;
     u_current_phase :=
       if Text.opt_truthy (r_current_phase result) then r_current_phase result else None;
     u_next_agent := None;
     u_food_request := None;
     u_food_request_pending := None;
     u_awaiting_food_request := None;
     u_final_recommendation :=
       if has_final then r_final_recommendation result else None;
     u_can_eat_verdict :=
       if has_final then Some (or_else (r_can_eat_verdict result) false) else None;
     u_session_complete := if has_final then Some true else None |}.

(** What [nutritionist(state)] returns. *)
Record NutritionistResult : Type := {
  n_message : option string;
  n_nutrition_profile : option (option NutritionProfile)
}.

Definition nutritionist_node (state : State) (result : NutritionistResult)
    (now : string) : Update :=
  {| u_messages := Some (with_message state "nutritionist" (n_message result) now);
     u_current_user_input := None;
     u_awaiting_user_input := Some false;
     u_user_profile := None; u_profile_complete := None;
     u_nutrition_profile :=
       Some (or_else (n_nutrition_profile result) (nutrition_profile state));
     u_food_analysis := None;
     u_current_phase := Some "nutrition_analysis"%string;
     u_next_agent := None; u_food_request := None;
     u_food_request_pending := None; u_awaiting_food_request := None;
     u_final_recommendation := None; u_can_eat_verdict := None;
     u_session_complete := None |}.

(** What [food_specialist(state)] returns. *)
Record FoodSpecialistResult : Type := {
  f_message : option string;
  f_food_analysis : option (option FoodAnalysis)
}.

Definition food_specialist_node (state : State) (result : FoodSpecialistResult)
    (now : string) : Update :=
  {| u_messages := Some (with_message state "food_specialist" (f_message result) now);
     u_current_user_input := None;
     u_awaiting_user_input := Some false;
     u_user_profile := None; u_profile_complete := None;
     u_nutrition_profile := None;
     u_food_analysis :=
       Some (or_else (f_food_analysis result) (food_analysis state));
     u_current_phase := Some "food_analysis"%string;
     u_next_agent := None; u_food_request := None;
     u_food_request_pending := Some false;
     u_awaiting_food_request := None;
     u_final_recommendation := None; u_can_eat_verdict := None;
     u_session_complete := None |}.

Definition completion_node (state : State) : Update :=
  {| u_messages := None; u_current_user_input := None;
     u_awaiting_user_input := Some false;
     u_user_profile := None; u_profile_complete := None;
     u_nutrition_profile := None; u_food_analysis := None;
     u_current_phase := None; u_next_agent := None;
     u_food_request := None; u_food_request_pending := None;
     u_awaiting_food_request := None;
     u_final_recommendation := None; u_can_eat_verdict := None;
     u_session_complete := Some true |}.

(** The checks of [_validate_profile_data] read as properties of a stored
    entry: what each key holds once it has passed. *)
Definition age_ok (v : Py.pyval) : bool :=
  match v with Py.PInt a => (1 <=? a) && (a <=? 120) | _ => false end.
Definition sex_ok (v : Py.pyval) : bool :=
  match v with Py.PStr s => Text.str_in s ["male"; "female"]%string | _ => false end.
Definition height_ok (v : Py.pyval) : bool :=
  match v with Py.PFloat h => in_range 80 250 h | _ => false end.
Definition weight_ok (v : Py.pyval) : bool :=
  match v with Py.PFloat w => in_range 20 400 w | _ => false end.
Definition activity_ok (v : Py.pyval) : bool :=
  match v with Py.PStr s => Text.str_in s valid_levels | _ => false end.
Definition first_meal_ok (v : Py.pyval) : bool :=
  match v with Py.PBool _ => true | _ => false end.

Definition entry_ok (check : Py.pyval -> bool) (entry : option Py.pyval) : bool :=
  match entry with Some v => check v | None => true end.

(** Every entry that is present passes its check. *)
Definition profile_valid (p : UserProfile) : bool :=
  entry_ok age_ok (age p) && entry_ok sex_ok (sex p)
  && entry_ok height_ok (height_cm p) && entry_ok weight_ok (weight_kg p)
  && entry_ok activity_ok (activity_level p)
  && entry_ok first_meal_ok (first_meal p).

(** All six required keys are present. *)
Definition all_present (p : UserProfile) : bool :=
  is_some (age p) && is_some (sex p) && is_some (height_cm p)
  && is_some (weight_kg p) && is_some (activity_level p)
  && is_some (first_meal p).

(** The flag the specification describes: derived from the profile, true
    exactly when the six keys are present and each passes its check. *)
Definition profile_complete_derived (p : UserProfile) : bool :=
  all_present p && profile_valid p.

(* ================================================================== *)
(** * agents/nutritionist.py *)
(* ================================================================== *)

Definition _get_bmi_class (bmi : Q) : string :=
  if Qlt_le_dec bmi (37 # 2) then "underweight"
  else if Qlt_le_dec bmi 25 then "normal"
  else if Qlt_le_dec bmi 30 then "overweight"
  else "obese".

Definition pystr_eqb (v : Py.pyval) (s : string) : bool :=
  match v with Py.PStr t => String.eqb t s | _ => false end.

(** [multipliers.get(level, 1.2)] *)
Definition _get_activity_multiplier (level : Py.pyval) : Q :=
  if pystr_eqb level "sedentary" then (12 # 10)%Q
  else if pystr_eqb level "light" then 1375 # 1000
  else if pystr_eqb level "moderate" then 155 # 100
  else if pystr_eqb level "active" then 1725 # 1000
  else if pystr_eqb level "very_active" then 19 # 10
  else 12 # 10.

(** [profile[key]] *)
Definition lookup (entry : option Py.pyval) : Py.outcome Py.pyval :=
  match entry with Some v => Py.Ok v | None => Py.Raise Py.KeyError end.

(** [x / y] on floats. *)
Definition divide (x y : Q) : Py.outcome Q :=
  if Qeq_bool y 0 then Py.Raise Py.ZeroDivisionError else Py.Ok (x / y)%Q.

Notation "x <- m ;; k" := (Py.bind m (fun x => k))
  (at level 61, m at next level, right associativity).

Definition bmr_of (weight height_m : Q) (age : Z) (sex : Py.pyval) : Q :=
  if pystr_eqb sex "male"
  then (10 * weight + (625 # 100) * (height_m * 100) - 5 * inject_Z age + 5)%Q
  else (10 * weight + (625 # 100) * (height_m * 100) - 5 * inject_Z age - 161)%Q.

Definition target_of (tdee : Q) : Z := Z.max (Py.round (tdee - 500)%Q) 1200.

(** The body of the [try] block of [_calculate_basic_metrics]. *)
Definition basic_metrics_body (profile : UserProfile) : Py.outcome NutritionProfile :=
  wv <- lookup (weight_kg profile) ;;
  weight <- Py.float wv ;;
  hv <- lookup (height_cm profile) ;;
  height <- Py.float hv ;;
  let height_m := (height / 100)%Q in
  av <- lookup (age profile) ;;
  age <- Py.int av ;;
  sex <- lookup (sex profile) ;;
  activity_level <- lookup (activity_level profile) ;;
  ratio <- divide weight (height_m * height_m)%Q ;;
  let bmi := Py.round_to ratio 2 in
  let bmr := bmr_of weight height_m age sex in
  let tdee := (bmr * _get_activity_multiplier activity_level)%Q in
  let target := target_of tdee in
  Py.Ok {| bmi := bmi;
           bmi_class := _get_bmi_class bmi;
           bmr := Py.round_to bmr 1;
           tdee := Py.round_to tdee 1;
           target_calories := target;
           recommended_macros :=
             {| protein_g := Py.round_to (weight * (16 # 10))%Q 1;
                carbs_g := Py.round_to (inject_Z target * (4 # 10) / 4)%Q 1;
                fat_g := Py.round_to (inject_Z target * (3 # 10) / 9)%Q 1 |};
           health_assessment := "" |}.

Definition fallback_metrics : NutritionProfile :=
  {| bmi := 22; bmi_class := "normal"; bmr := 1500; tdee := 1800;
     target_calories := 1300;
     recommended_macros := {| protein_g := 100; carbs_g := 130; fat_g := 43 |};
     health_assessment := "Unable to calculate precise metrics due to missing data." |}.

(** [_calculate_basic_metrics]: the handler catches [KeyError],
    [ValueError] and [TypeError]; any other exception leaves the function. *)
Definition _calculate_basic_metrics (profile : UserProfile)
    : Py.outcome NutritionProfile :=
  match basic_metrics_body profile with
  | Py.Ok np => Py.Ok np
  | Py.Raise Py.KeyError | Py.Raise Py.ValueError | Py.Raise Py.TypeError =>
      Py.Ok fallback_metrics
  | Py.Raise e => Py.Raise e
  end.

(** The parts of the model's JSON reply that [_generate_enhanced_analysis]
    reads: [message] and [nutrition_profile.health_assessment]. *)
Record NutritionistReply : Type := {
  nr_message : option string;
  nr_health_assessment : option string
}.

Definition set_health_assessment (np : NutritionProfile) (h : string)
    : NutritionProfile :=
  {| bmi := bmi np; bmi_class := bmi_class np; bmr := bmr np; tdee := tdee np;
     target_calories := target_calories np;
     recommended_macros := recommended_macros np;
     health_assessment := h |}.

Definition fallback_health_msg (bmi_status : string) : string :=
  if String.eqb bmi_status "underweight"
  then "Your BMI indicates you're underweight. Focus on healthy weight gain with nutrient-dense foods."
  else if String.eqb bmi_status "normal"
  then "Great! Your BMI is in the healthy range. Maintain this with balanced nutrition and regular exercise."
  else if String.eqb bmi_status "overweight"
  then "Your BMI indicates you're overweight. A gradual weight loss approach will help you reach a healthier weight."
  else "Your BMI indicates obesity. Consider consulting a healthcare provider for a comprehensive weight management plan.".

(** [_generate_enhanced_analysis]: the message and the nutrition profile it
    returns; [llm] is [None] when the [try] block raised. *)
Definition _generate_enhanced_analysis (user_profile : UserProfile)
    (basic_nutrition : NutritionProfile) (llm : option NutritionistReply)
    : string * NutritionProfile :=
  match llm with
  | Some result =>
      (or_else (nr_message result) "Nutritional analysis complete."%string,
       match nr_health_assessment result with
       | Some h => set_health_assessment basic_nutrition h
       | None => basic_nutrition
       end)
  | None =>
      let bmi_status := bmi_class basic_nutrition in
      let health_msg := fallback_health_msg bmi_status in
      (("Based on your profile: BMI " ++ Py.show_Q (bmi basic_nutrition)
        ++ " (" ++ bmi_status ++ "), BMR " ++ Py.show_Q (bmr basic_nutrition)
        ++ " cal/day, TDEE " ++ Py.show_Q (tdee basic_nutrition)
        ++ " cal/day. Target: " ++ Text.show_Z (target_calories basic_nutrition)
        ++ " cal/day for weight loss. " ++ health_msg)%string,
       set_health_assessment basic_nutrition health_msg)
  end.

(** [nutritionist] *)
Definition nutritionist (state : State) (llm : option NutritionistReply)
    : Py.outcome NutritionistResult :=
  basic_nutrition <- _calculate_basic_metrics (user_profile state) ;;
  let enhanced := _generate_enhanced_analysis (user_profile state) basic_nutrition llm in
  Py.Ok {| n_message := Some (fst enhanced);
           n_nutrition_profile := Some (Some (snd enhanced)) |}.

(* ================================================================== *)
(** * agents/food_specialist.py *)
(* ================================================================== *)

(** The [food_analysis] object of the model's reply; [None] is an absent
    key, replaced by the default of the matching [.get]. *)
Record FoodAnalysisData : Type := {
  d_food_item : option string;
  d_quantity : option string;
  d_calories_per_unit : option Q;
  d_total_calories : option Q;
  d_macros : option (list (string * Q));
  d_nutritional_notes : option string;
  d_health_impact : option string
}.

Record FoodSpecialistReply : Type := {
  fr_message : option string;
  fr_food_analysis : option FoodAnalysisData
}.

Definition no_food_data : FoodAnalysisData :=
  {| d_food_item := None; d_quantity := None; d_calories_per_unit := None;
     d_total_calories := None; d_macros := None; d_nutritional_notes := None;
     d_health_impact := None |}.

Definition zero_macros : list (string * Q) :=
  [("protein_g", 0); ("carbs_g", 0); ("fat_g", 0); ("fiber_g", 0);
   ("sugar_g", 0)]%string%Q.

Definition estimated_macros : list (string * Q) :=
  [("protein_g", 5); ("carbs_g", 15); ("fat_g", 3); ("fiber_g", 2);
   ("sugar_g", 8)]%string%Q.

Definition _generate_complete_food_analysis (food_request : string)
    (user_profile : UserProfile) (nutrition_profile : option NutritionProfile)
    (llm : option FoodSpecialistReply) : FoodSpecialistResult :=
  match llm with
  | Some result =>
      let data := or_else (fr_food_analysis result) no_food_data in
      {| f_message :=
           Some (or_else (fr_message result)
                   ("Complete nutritional analysis for " ++ food_request ++ ".")%string);
         f_food_analysis :=
           Some (Some
             {| food_item := or_else (d_food_item data) food_request;
                quantity := or_else (d_quantity data) food_request;
                calories_per_unit := or_else (d_calories_per_unit data) 0%Q;
                total_calories := or_else (d_total_calories data) 0%Q;
                macros := or_else (d_macros data) zero_macros;
                nutritional_notes :=
                  or_else (d_nutritional_notes data) "LLM-powered nutritional analysis"%string;
                health_impact :=
                  or_else (d_health_impact data) "Analyzed using AI nutritional knowledge"%string |}) |}
  | None =>
      let target_cals := target_calories_or nutrition_profile 2000 in
      let estimated_calories := 100 in
      let percentage_of_daily :=
        if 0 <? target_cals
        then Py.round_to (inject_Z estimated_calories / inject_Z target_cals * 100)%Q 1
        else 0%Q in
      {| f_message :=
           Some ("Food analysis for " ++ food_request ++ ": Estimated "
                 ++ Text.show_Z estimated_calories ++ " calories ("
                 ++ Py.show_Q percentage_of_daily
                 ++ "% of your daily target). This is a general estimate - actual values may vary based on preparation and portion size.")%string;
         f_food_analysis :=
           Some (Some
             {| food_item := food_request;
                quantity := food_request;
                calories_per_unit := inject_Z estimated_calories;
                total_calories := inject_Z estimated_calories;
                macros := estimated_macros;
                nutritional_notes :=
                  ("Estimated nutritional content for " ++ food_request
                   ++ ". Approximately " ++ Text.show_Z estimated_calories
                   ++ " calories.")%string;
                health_impact :=
                  "Moderate caloric impact. Consider portion size and daily intake balance." |}) |}
  end.

(** [food_specialist] *)
Definition food_specialist (state : State) (llm : option FoodSpecialistReply)
    : FoodSpecialistResult :=
  if negb (Text.opt_truthy (food_request state)) then
    {| f_message := Some "I need to know what food you want to analyze! Please tell me what you'd like to eat."%string;
       f_food_analysis := Some None |}
  else
    _generate_complete_food_analysis (or_else (food_request state) ""%string)
      (user_profile state) (nutrition_profile state) llm.

(* ================================================================== *)
(** * tools/food_db.py *)
(* ================================================================== *)

Module FoodDB.

(** The [eaten] object of a catalogue entry; [e_calories] is
    [total_nutritional_content.calories]. *)
Record Eaten : Type := {
  food_name_singular : option string;
  food_name_plural : option string;
  e_calories : option Json.value
}.

Record Item : Type := {
  food_entry_name : option string;
  eaten : option Eaten
}.

Definition no_eaten : Eaten :=
  {| food_name_singular := None; food_name_plural := None; e_calories := None |}.

(** [a == name_l or name_l in a or a in name_l] *)
Definition related (a name_l : string) : bool :=
  String.eqb a name_l || Text.contains name_l a || Text.contains a name_l.

(** One turn of the loop of [find_match]: does [item] get returned? *)
Definition item_matches (name_l : string) (item : Item) : bool :=
  let entry := Text.lower (or_else (food_entry_name item) ""%string) in
  related entry name_l
  || (let e := or_else (eaten item) no_eaten in
      existsb (fun alias =>
                 let v := Text.lower (or_else alias ""%string) in
                 Text.str_truthy v && related v name_l)
              [food_name_singular e; food_name_plural e]).

Definition find_match (items : list Item) (name : string) : option Item :=
  find (item_matches (Text.lower name)) items.

Fixpoint span (p : ascii -> bool) (s : string) : string * string :=
  match s with
  | EmptyString => (EmptyString, EmptyString)
  | String c r =>
      if p c then let '(a, b) := span p r in (String c a, b)
      else (EmptyString, s)
  end.

Fixpoint all_chars (p : ascii -> bool) (s : string) : bool :=
  match s with
  | EmptyString => true
  | String c r => p c && all_chars p r
  end.

(** The class [[\w\s\-]]. *)
Definition phrase_char (c : ascii) : bool :=
  Text.is_word c || Text.is_space c || Ascii.eqb c "-"%char.

(** [re.match(r"\s*(\d+)\s+([\w\s\-]+)\s*$", t)] read off the pattern:
    blanks, the longest run of digits, at least one blank, then the rest
    of [t], all of it in the phrase class.  The result is
    [(int(group 1), group 2 stripped)].  When nothing follows the blanks,
    the second group can only be carved out of two or more blanks and
    strips to the empty phrase. *)
Definition match_quantity (t : string) : option (Z * string) :=
  let '(_, r0) := span Text.is_space t in
  let '(ds, r1) := span Text.is_digit r0 in
  let '(ws, r2) := span Text.is_space r1 in
  match Py.nat_literal ds with
  | None => None
  | Some qty =>
      if negb (Text.str_truthy ws) then None
      else if negb (all_chars phrase_char r2) then None
      else if negb (Text.str_truthy r2) && Nat.ltb (String.length ws) 2 then None
      else Some (qty, Text.strip r2)
  end.

(** The quantity and the item name [calories_for] works with. *)
Definition parse_query (text : string) : Z * string :=
  match match_quantity (Text.strip text) with
  | Some (qty, item_name) => (qty, item_name)
  | None => (1, Text.strip text)
  end.

(** [bool(item)]: an entry with no key at all is false. *)
Definition item_truthy (item : Item) : bool :=
  is_some (food_entry_name item) || is_some (eaten item).

(** [match.get("eaten", {}).get("total_nutritional_content", {}).get("calories")] *)
Definition calories_entry (m : Item) : Json.value :=
  or_else (e_calories (or_else (eaten m) no_eaten)) Json.JNull.

(** [calories_for]; [items] is [self._items()].  Only [float()] sits in
    the [try], and only [TypeError] and [ValueError] are caught: an
    [OverflowError] of [float()], and whatever [qty * per_unit] and
    [round] raise, leave the function. *)
Definition calories_for (items : list Item) (text : string)
    : Py.outcome (option (Z * string)) :=
  let '(qty, item_name) := parse_query text in
  match find_match items item_name with
  | None => Py.Ok None
  | Some m =>
      if negb (item_truthy m) then Py.Ok None
      else
        match Json.float (calories_entry m) with
        | Py.Raise Py.TypeError | Py.Raise Py.ValueError => Py.Ok None
        | Py.Raise e => Py.Raise e
        | Py.Ok per_unit =>
            product <- F64.int_mul qty per_unit ;;
            total <- F64.round product ;;
            Py.Ok (Some (total, or_else (food_entry_name m) item_name))
        end
  end.

(** The declarative reading of [related]. *)
Definition Related (a name_l : string) : Prop :=
  a = name_l \/ Text.occurs_in name_l a \/ Text.occurs_in a name_l.

(** An entry answers a phrase when, case set aside, its canonical name
    (the empty string when absent) or one of its non-empty aliases equals
    the phrase, contains it or is contained in it. *)
Definition Matches (phrase : string) (item : Item) : Prop :=
  Related (Text.lower (or_else (food_entry_name item) ""%string)) (Text.lower phrase)
  \/ exists alias,
       (food_name_singular (or_else (eaten item) no_eaten) = Some alias
        \/ food_name_plural (or_else (eaten item) no_eaten) = Some alias)
       /\ Text.lower alias <> ""%string
       /\ Related (Text.lower alias) (Text.lower phrase).

(** The first entry of the catalogue that answers the phrase. *)
Definition FirstMatch (items : list Item) (phrase : string) (m : Item) : Prop :=
  exists before after,
    items = before ++ m :: after
    /\ Forall (fun it => ~ Matches phrase it) before
    /\ Matches phrase m.

End FoodDB.

(* ================================================================== *)
(** * main.py: running the compiled graph *)
(* ================================================================== *)

(** What the outside world contributes to one step. *)
Inductive Input : Type :=
| InHuman (line now : string)
| InTrainer (llm : option TrainerResult) (now : string)
| InNutritionist (llm : option NutritionistReply) (now : string)
| InFoodSpecialist (llm : option FoodSpecialistReply) (now : string)
| InCompletion.

(** The update node [n] returns on state [s]; [None] when the input is
    not the one the node consumes or when the node raises. *)
Definition node_update (n : Node) (s : State) (i : Input) : option Update :=
  match n, i with
  | Human, InHuman line now => Some (human_node s line now)
  | Trainer, InTrainer llm now => Some (trainer_node s (trainer s llm) now)
  | Nutritionist, InNutritionist llm now =>
      match nutritionist s llm with
      | Py.Ok r => Some (nutritionist_node s r now)
      | Py.Raise _ => None
      end
  | FoodSpecialist, InFoodSpecialist llm now =>
      Some (food_specialist_node s (food_specialist s llm) now)
  | Completion, InCompletion => Some (completion_node s)
  | _, _ => None
  end.

Definition node_eqb (a b : Node) : bool :=
  match a, b with
  | Human, Human | Trainer, Trainer | Nutritionist, Nutritionist
  | FoodSpecialist, FoodSpecialist | Completion, Completion | END, END => true
  | _, _ => false
  end.

(** A router's answer is looked up in the path map of its edge. *)
Definition pick (target : Node) (targets : list Node) : option Node :=
  if existsb (node_eqb target) targets then Some target else None.

(** The edge taken out of node [n] once its update is merged. *)
Definition next_node (n : Node) (s : State) : option Node :=
  match n with
  | Trainer => pick (after_trainer s) trainer_targets
  | Human => Some (after_human s)
  | Nutritionist => pick (after_nutritionist s) nutritionist_targets
  | FoodSpecialist => pick (after_food_specialist s) food_specialist_targets
  | Completion => Some END
  | END => None
  end.

(** One step of the graph: run the node, merge, route. *)
Definition step (n : Node) (s : State) (i : Input) : option (Node * State * Update) :=
  match node_update n s i with
  | None => None
  | Some u =>
      let s' := merge s u in
      match next_node n s' with
      | Some n' => Some (n', s', u)
      | None => None
      end
  end.

(** A run over a sequence of inputs, with the updates it merged. *)
Fixpoint run (n : Node) (s : State) (inputs : list Input)
    : option (Node * State * list Update) :=
  match inputs with
  | [] => Some (n, s, [])
  | i :: rest =>
      match step n s i with
      | None => None
      | Some (n', s', u) =>
          match run n' s' rest with
          | Some (n'', s'', us) => Some (n'', s'', u :: us)
          | None => None
          end
      end
  end.

(** How many of the updates name [final_recommendation]. *)
Definition count_final (us : list Update) : nat :=
  List.length (filter (fun u => is_some (u_final_recommendation u)) us).

(* ================================================================== *)
(** * Sample states and inputs *)
(* ================================================================== *)

(** A state used to exercise the routing guards: the session is suspended
    although every later guard of the chain would have something to do. *)
Definition suspended_state : State :=
  {| messages := [];
     current_user_input := "what should i eat";
     awaiting_user_input := true;
     user_profile := empty_profile;
     profile_complete := false;
     nutrition_profile := Some fallback_metrics;
     food_analysis := None;
     current_phase := "profile_collection";
     next_agent := "trainer";
     food_request := Some "2 apples"%string;
     food_request_pending := false;
     awaiting_food_request := false;
     final_recommendation := "";
     can_eat_verdict := false;
     session_complete := false |}.

(** Profile and nutrition profile in place, nothing asked about a food
    yet, and the last input asks for a meal plan. *)
Definition meal_plan_state : State :=
  {| messages := [];
     current_user_input := "Give me a meal plan";
     awaiting_user_input := false;
     user_profile := empty_profile;
     profile_complete := true;
     nutrition_profile := Some fallback_metrics;
     food_analysis := None;
     current_phase := "nutrition_analysis";
     next_agent := "trainer";
     food_request := None;
     food_request_pending := false;
     awaiting_food_request := false;
     final_recommendation := "";
     can_eat_verdict := false;
     session_complete := false |}.

(** The same without the request for a meal plan. *)
Definition ready_for_food_state : State :=
  {| messages := [];
     current_user_input := "yes, first meal";
     awaiting_user_input := false;
     user_profile := empty_profile;
     profile_complete := true;
     nutrition_profile := Some fallback_metrics;
     food_analysis := None;
     current_phase := "nutrition_analysis";
     next_agent := "trainer";
     food_request := None;
     food_request_pending := false;
     awaiting_food_request := false;
     final_recommendation := "";
     can_eat_verdict := false;
     session_complete := false |}.

(** The state after the first step of a session in which the language
    model cannot be reached: the trainer has greeted and waits. *)
Definition greeted_state : State :=
  Eval vm_compute in
    merge initial_state
      (trainer_node initial_state (trainer initial_state None) "t0").

(** Profile and nutrition profile in place and a food request stored,
    not analysed yet. *)
Definition food_requested_state : State :=
  {| messages := [];
     current_user_input := "2 apples";
     awaiting_user_input := false;
     user_profile := empty_profile;
     profile_complete := true;
     nutrition_profile := Some fallback_metrics;
     food_analysis := None;
     current_phase := "food_request";
     next_agent := "trainer";
     food_request := Some "2 apples"%string;
     food_request_pending := true;
     awaiting_food_request := false;
     final_recommendation := "";
     can_eat_verdict := false;
     session_complete := false |}.

(** A reply of the language model during profile collection: it passes on
    the age it was told and declares the profile complete. *)
Definition hasty_reply : TrainerResult :=
  {| r_message := Some "Noted lah!"%string;
     r_user_profile :=
       Some {| age := Some (Py.PInt 30); sex := None; height_cm := None;
               weight_kg := None; activity_level := None; first_meal := None |};
     r_profile_complete := Some true;
     r_current_phase := Some "profile_collection"%string;
     r_awaiting_user_input := Some false;
     r_awaiting_food_request := None; r_food_request := None;
     r_final_recommendation := None; r_can_eat_verdict := None |}.

(** A whole session, the language model reachable only in the first step. *)
Definition sample_inputs : list Input :=
  [InTrainer (Some hasty_reply) "t0"; InNutritionist None "t1";
   InTrainer None "t2"; InHuman "2 apples" "t3"; InTrainer None "t4";
   InFoodSpecialist None "t5"; InTrainer None "t6"; InCompletion].

(** A reply that passes on all six entries, one of them out of range (a
    height of 300 cm), and declares the profile complete. *)
Definition overconfident_reply : TrainerResult :=
  {| r_message := Some "All set lah!"%string;
     r_user_profile :=
       Some {| age := Some (Py.PInt 30); sex := Some (Py.PStr "male");
               height_cm := Some (Py.PInt 300); weight_kg := Some (Py.PInt 70);
               activity_level := Some (Py.PStr "moderate");
               first_meal := Some (Py.PBool true) |};
     r_profile_complete := Some true;
     r_current_phase := Some "profile_collection"%string;
     r_awaiting_user_input := Some false;
     r_awaiting_food_request := None; r_food_request := None;
     r_final_recommendation := None; r_can_eat_verdict := None |}.

(** A reply that passes on six valid entries and leaves the flag false. *)
Definition modest_reply : TrainerResult :=
  {| r_message := Some "Thanks!"%string;
     r_user_profile :=
       Some {| age := Some (Py.PInt 30); sex := Some (Py.PStr "Male");
               height_cm := Some (Py.PInt 175); weight_kg := Some (Py.PFloat (145 # 2));
               activity_level := Some (Py.PStr "moderate");
               first_meal := Some (Py.PStr "yes") |};
     r_profile_complete := Some false;
     r_current_phase := Some "profile_collection"%string;
     r_awaiting_user_input := Some false;
     r_awaiting_food_request := None; r_food_request := None;
     r_final_recommendation := None; r_can_eat_verdict := None |}.

(** A profile whose height is zero. *)
Definition zero_height_profile : UserProfile :=
  {| age := Some (Py.PInt 30); sex := Some (Py.PStr "male");
     height_cm := Some (Py.PInt 0); weight_kg := Some (Py.PInt 70);
     activity_level := Some (Py.PStr "moderate"); first_meal := Some (Py.PBool true) |}.

Definition zero_height_state : State :=
  {| messages := [];
     current_user_input := "";
     awaiting_user_input := false;
     user_profile := zero_height_profile;
     profile_complete := true;
     nutrition_profile := None;
     food_analysis := None;
     current_phase := "profile_collection";
     next_agent := "trainer";
     food_request := None;
     food_request_pending := false;
     awaiting_food_request := false;
     final_recommendation := "";
     can_eat_verdict := false;
     session_complete := false |}.

(** A profile as [_validate_profile_data] leaves it. *)
Definition sample_profile : UserProfile :=
  {| age := Some (Py.PInt 30); sex := Some (Py.PStr "male");
     height_cm := Some (Py.PFloat 175); weight_kg := Some (Py.PFloat 70);
     activity_level := Some (Py.PStr "moderate"); first_meal := Some (Py.PBool true) |}.

(** First character of a string, if any, fails [p]. *)
Definition stops_at (p : ascii -> bool) (s : string) : Prop :=
  match s with
  | EmptyString => True
  | String c _ => p c = false
  end.

(** [s[:1].isspace()] *)
Definition starts_blank (s : string) : bool :=
  match s with
  | EmptyString => false
  | String c _ => Text.is_space c
  end.

(** A catalogue of one entry: banana, 89 calories a piece. *)
Definition banana : FoodDB.Item :=
  {| FoodDB.food_entry_name := Some "banana"%string;
     FoodDB.eaten :=
       Some {| FoodDB.food_name_singular := None;
               FoodDB.food_name_plural := None;
               FoodDB.e_calories := Some (Json.JInt 89) |} |}.

(** Replies of the language model for a session that ends in the
    nutritionist with a height of zero: a complete, valid profile; then,
    asked for the final recommendation, an object without
    [final_recommendation] that carries a profile of its own and asks for
    more input; then a bare message. *)
Definition complete_reply : TrainerResult :=
  {| r_message := Some "Thanks, got everything!"%string;
     r_user_profile := Some sample_profile;
     r_profile_complete := Some true;
     r_current_phase := Some "profile_collection"%string;
     r_awaiting_user_input := Some false;
     r_awaiting_food_request := None; r_food_request := None;
     r_final_recommendation := None; r_can_eat_verdict := None |}.

Definition bogus_profile_reply : TrainerResult :=
  {| r_message := Some "Anything else?"%string;
     r_user_profile := Some zero_height_profile;
     r_profile_complete := Some true;
     r_current_phase := None;
     r_awaiting_user_input := Some true;
     r_awaiting_food_request := None; r_food_request := None;
     r_final_recommendation := None; r_can_eat_verdict := None |}.

Definition silent_reply : TrainerResult :=
  {| r_message := Some "One moment."%string;
     r_user_profile := None; r_profile_complete := None;
     r_current_phase := None; r_awaiting_user_input := None;
     r_awaiting_food_request := None; r_food_request := None;
     r_final_recommendation := None; r_can_eat_verdict := None |}.

Definition zero_height_inputs : list Input :=
  [InTrainer (Some complete_reply) "t0"; InNutritionist None "t1";
   InTrainer None "t2"; InHuman "can i eat pizza" "t3"; InTrainer None "t4";
   InFoodSpecialist None "t5"; InTrainer (Some bogus_profile_reply) "t6";
   InHuman "give me a meal plan" "t7"; InTrainer (Some silent_reply) "t8"].

From Stdlib Require Import Lqa Qpower.

(* ================================================================== *)
(** * Further sample states and inputs *)
(* ================================================================== *)

(** The user named a food before the profile was complete: the request is
    stored, the profile is not complete, nothing is analysed. *)
Definition early_food_state : State :=
  {| messages := [];
     current_user_input := "can i eat pizza";
     awaiting_user_input := false;
     user_profile := empty_profile;
     profile_complete := false;
     nutrition_profile := None;
     food_analysis := None;
     current_phase := "profile_collection";
     next_agent := "trainer";
     food_request := Some "can i eat pizza"%string;
     food_request_pending := false;
     awaiting_food_request := false;
     final_recommendation := "";
     can_eat_verdict := false;
     session_complete := false |}.

(** Is the input anything but a decoded reply of the language model to
    the trainer? *)
Definition no_trainer_reply (i : Input) : bool :=
  match i with
  | InTrainer (Some _) _ => false
  | _ => true
  end.

(** Three trainer steps with the language model unreachable. *)
Definition three_trainer_steps : list Input :=
  [InTrainer None "t1"; InTrainer None "t2"; InTrainer None "t3"].

(** A session without the language model: greeting, an answer, a second
    question, then the user leaves. *)
Definition offline_inputs : list Input :=
  [InTrainer None "t0"; InHuman "35" "t1"; InTrainer None "t2";
   InHuman "bye" "t3"; InCompletion].

(** The state after the user left with "quit" right after the greeting. *)
Definition left_state : State :=
  Eval vm_compute in merge greeted_state (human_node greeted_state "quit" "t1").

(** The nodes of profile collection and session control: all but the two
    specialists. *)
Definition collecting (n : Node) : bool :=
  match n with
  | Nutritionist | FoodSpecialist => false
  | _ => true
  end.

(** What [trainer] answers when a food request is stored and not analysed. *)
Definition handover_message : Message -> Prop :=
  fun m => role m = "trainer"%string
           /\ content m = "Let me get our food specialist to analyze that for you!"%string.

(** Is the input one the trainer node consumes? *)
Definition for_trainer (i : Input) : bool :=
  match i with InTrainer _ _ => true | _ => false end.

(** Profile complete, nutrition profile missing, and the last input asks
    for a diet plan. *)
Definition plan_before_metrics_state : State :=
  {| messages := [];
     current_user_input := "yes. any diet advice?";
     awaiting_user_input := false;
     user_profile := sample_profile;
     profile_complete := true;
     nutrition_profile := None;
     food_analysis := None;
     current_phase := "profile_collection";
     next_agent := "trainer";
     food_request := None;
     food_request_pending := false;
     awaiting_food_request := false;
     final_recommendation := "";
     can_eat_verdict := false;
     session_complete := false |}.

(** Everything in place for the final recommendation. *)
Definition analysed_state : State :=
  Eval vm_compute in
    merge food_requested_state
      (food_specialist_node food_requested_state
         (food_specialist food_requested_state None) "t5").

(** A stored profile with two entries, and a reply that brings a valid
    height, an age out of range and a sex that is no choice. *)
Definition partial_profile : UserProfile :=
  {| age := Some (Py.PInt 30); sex := Some (Py.PStr "female");
     height_cm := None; weight_kg := None;
     activity_level := None; first_meal := None |}.

Definition partial_state : State :=
  {| messages := [];
     current_user_input := "I am 168 cm, 150 years old";
     awaiting_user_input := false;
     user_profile := partial_profile;
     profile_complete := false;
     nutrition_profile := None;
     food_analysis := None;
     current_phase := "profile_collection";
     next_agent := "trainer";
     food_request := None;
     food_request_pending := false;
     awaiting_food_request := false;
     final_recommendation := "";
     can_eat_verdict := false;
     session_complete := false |}.

Definition mixed_reply : TrainerResult :=
  {| r_message := Some "Okay!"%string;
     r_user_profile :=
       Some {| age := Some (Py.PInt 150); sex := Some (Py.PStr "unknown");
               height_cm := Some (Py.PStr "168"); weight_kg := None;
               activity_level := None; first_meal := None |};
     r_profile_complete := Some false;
     r_current_phase := Some "profile_collection"%string;
     r_awaiting_user_input := Some true;
     r_awaiting_food_request := None; r_food_request := None;
     r_final_recommendation := None; r_can_eat_verdict := None |}.


(** A reply during profile collection that extracts nothing and does not
    say whether input is awaited. *)
Definition vague_reply : TrainerResult :=
  {| r_message := Some "Hmm, tell me more leh."%string;
     r_user_profile := None; r_profile_complete := None;
     r_current_phase := None; r_awaiting_user_input := None;
     r_awaiting_food_request := None; r_food_request := None;
     r_final_recommendation := None; r_can_eat_verdict := None |}.

(** An entry [float()] converts without [OverflowError]: anything but an
    integer beyond the range of a double. *)
Definition fits_double (o : option Py.pyval) : bool :=
  match o with
  | Some (Py.PInt z) => Z.abs z <=? 10 ^ 300
  | _ => true
  end.



(* ================================================================== *)
(** * Facts about the string builtins *)
(* ================================================================== *)

Lemma starts_with_iff (p s : string) :
  Text.starts_with p s = true <-> exists b, s = (p ++ b)%string.
Proof.
  revert s; induction p as [|a p IH]; intros s; simpl.
  - split; [intros _; now exists s | reflexivity].
  - destruct s as [|b s]; simpl.
    + split; [discriminate | intros [x Hx]; discriminate].
    + rewrite andb_true_iff, Ascii.eqb_eq, IH. split.
      * intros [-> [x ->]]. now exists x.
      * intros [x Hx]. injection Hx as -> ->. split; [reflexivity | now exists x].
Qed.

Lemma contains_iff (p s : string) :
  Text.contains p s = true <-> Text.occurs_in p s.
Proof.
  unfold Text.occurs_in.
  induction s as [|c s IH]; simpl Text.contains.
  - rewrite orb_false_r, starts_with_iff. split.
    + intros [b Hb]. exists EmptyString, b. exact Hb.
    + intros [a [b Hab]]. destruct a; simpl in Hab; [now exists b | discriminate].
  - rewrite orb_true_iff, starts_with_iff, IH. split.
    + intros [[b Hb] | [a [b Hab]]].
      * exists EmptyString, b. exact Hb.
      * exists (String c a), b. simpl. now rewrite Hab.
    + intros [a [b Hab]]. destruct a as [|c' a]; simpl in Hab.
      * left. now exists b.
      * right. injection Hab as _ ->. now exists a, b.
Qed.

Lemma str_in_iff (x : string) (l : list string) :
  Text.str_in x l = true <-> In x l.
Proof.
  unfold Text.str_in. rewrite existsb_exists. split.
  - intros [y [Hy He]]. apply String.eqb_eq in He. now subst.
  - intros H. exists x. split; [assumption | apply String.eqb_refl].
Qed.

Lemma any_in_iff (words : list string) (text : string) :
  any_in words text = true <-> exists w, In w words /\ Text.occurs_in w text.
Proof.
  unfold any_in. rewrite existsb_exists.
  split; intros [w [Hw Hc]]; exists w; split; try assumption;
    now apply contains_iff.
Qed.

Lemma has_quantity_food_iff (text : string) :
  has_quantity_food text = true <->
  exists num food, In num numerals /\ In food specific_foods
                   /\ Text.occurs_in (num ++ " " ++ food) text.
Proof.
  unfold has_quantity_food. rewrite existsb_exists. split.
  - intros [num [Hn H]]. apply existsb_exists in H. destruct H as [food [Hf Hc]].
    exists num, food. repeat split; try assumption. now apply contains_iff.
  - intros [num [food [Hn [Hf Hc]]]]. exists num. split; [assumption|].
    apply existsb_exists. exists food. split; [assumption|]. now apply contains_iff.
Qed.

(* ================================================================== *)
(** * Routing *)
(* ================================================================== *)

(** The nodes that hand control to [determine_next_agent] always clear
    [awaiting_user_input] first. *)
Lemma nutritionist_node_not_awaiting (s : State) r now :
  awaiting_user_input (merge s (nutritionist_node s r now)) = false.
Proof. reflexivity. Qed.

Lemma food_specialist_node_not_awaiting (s : State) r now :
  awaiting_user_input (merge s (food_specialist_node s r now)) = false.
Proof. reflexivity. Qed.

Lemma human_node_not_awaiting (s : State) line now :
  awaiting_user_input (merge s (human_node s line now)) = false.
Proof. unfold human_node. destruct (Text.str_in _ _); reflexivity. Qed.

Lemma pick_some (x y : Node) (l : list Node) : pick x l = Some y -> y = x.
Proof. unfold pick. destruct (existsb _ _); congruence. Qed.

Lemma step_inv (n : Node) (s : State) (i : Input) n' s' u :
  step n s i = Some (n', s', u) ->
  node_update n s i = Some u /\ s' = merge s u /\ next_node n s' = Some n'.
Proof.
  unfold step. destruct (node_update n s i) as [u0|]; [|discriminate].
  destruct (next_node n (merge s u0)) as [n0|] eqn:E; [|discriminate].
  intros H. injection H as <- <- <-. auto.
Qed.

(** C1.  In every state with [session_complete] false and
    [awaiting_user_input] true the routing policy of the trainer edge,
    [after_trainer], answers "human": the test comes before every guard of
    [determine_next_agent], whatever the other fields hold.  The same is
    true of every step of the graph that ends in such a state: the node
    chosen next is the human node.  (On the other edges
    [determine_next_agent] is consulted directly; the nodes in front of
    them always store [awaiting_user_input = False].) *)
Theorem awaiting_input_routes_to_human (s : State) :
  session_complete s = false ->
  awaiting_user_input s = true ->
  after_trainer s = Human
  /\ (forall n s0 i n' u, step n s0 i = Some (n', s, u) -> n' = Human).
Proof.
  intros Hc Ha. split.
  - unfold after_trainer. now rewrite Hc, Ha.
  - intros n s0 i n' u H. apply step_inv in H. destruct H as [Hu [Hs Hn]].
    destruct n; simpl in Hn.
    + (* human *)
      destruct i; try discriminate. simpl in Hu. injection Hu as <-.
      rewrite Hs, human_node_not_awaiting in Ha. discriminate.
    + apply pick_some in Hn. subst n'. unfold after_trainer. now rewrite Hc, Ha.
    + destruct i; try discriminate. simpl in Hu.
      destruct (nutritionist s0 llm); [|discriminate]. injection Hu as <-.
      rewrite Hs in Ha. discriminate.
    + destruct i; try discriminate. simpl in Hu. injection Hu as <-.
      rewrite Hs in Ha. discriminate.
    + destruct i; try discriminate. simpl in Hu. injection Hu as <-.
      rewrite Hs in Hc. discriminate.
    + discriminate.
Qed.

Lemma awaiting_input_routes_to_human_witness :
  session_complete suspended_state = false
  /\ awaiting_user_input suspended_state = true
  /\ after_trainer suspended_state = Human.
Proof.
  split; [reflexivity|]. split; [reflexivity|].
  apply (awaiting_input_routes_to_human suspended_state); reflexivity.
Defined.

(** The guards of [determine_next_agent] as one decision list. *)
Lemma determine_next_agent_eq (s : State) :
  determine_next_agent s =
  if negb (profile_complete s) then Trainer
  else if negb (has_nutrition_profile s) then Nutritionist
  else if is_meal_planning_request s then Nutritionist
  else if negb (has_food_request s) && negb (awaiting_food_request s) then Trainer
  else if has_food_request s && negb (has_food_analysis s) then FoodSpecialist
  else if has_food_analysis s && negb (has_final_recommendation s) then Trainer
  else Human.
Proof.
  unfold determine_next_agent, has_nutrition_profile, has_food_request,
    has_food_analysis, has_final_recommendation.
  destruct (profile_complete s); simpl; [|reflexivity].
  destruct (is_some (nutrition_profile s)); reflexivity.
Qed.

(** C2, the claim as stated fails: with the profile complete, the
    nutrition profile present, no food request and
    [awaiting_food_request] false, an input that asks for a meal plan is
    routed to the nutritionist, not to the trainer's food prompt. *)
Lemma routing_chain_counterexample :
  profile_complete meal_plan_state = true
  /\ has_nutrition_profile meal_plan_state = true
  /\ has_food_request meal_plan_state = false
  /\ awaiting_food_request meal_plan_state = false
  /\ determine_next_agent meal_plan_state = Nutritionist
  /\ determine_next_agent meal_plan_state <> Trainer.
Proof. repeat split; try reflexivity. discriminate. Qed.

(** C2, amended.  [determine_next_agent] follows its guards in order on
    every state: profile incomplete, trainer; profile complete without a
    nutrition profile, nutritionist; both present and the last input a
    meal-planning request, nutritionist again; otherwise no food request
    and not awaiting one, trainer (food prompt); a food request without
    analysis, food specialist; an analysis without final recommendation,
    trainer (final recommendation); in every remaining state, human.  The
    answer is always one of the four agents. *)
Theorem determine_next_agent_guard_chain (s : State) :
  (profile_complete s = false -> determine_next_agent s = Trainer)
  /\ (profile_complete s = true -> has_nutrition_profile s = false ->
      determine_next_agent s = Nutritionist)
  /\ (profile_complete s = true -> has_nutrition_profile s = true ->
      is_meal_planning_request s = true ->
      determine_next_agent s = Nutritionist)
  /\ (profile_complete s = true -> has_nutrition_profile s = true ->
      is_meal_planning_request s = false ->
      (has_food_request s = false -> awaiting_food_request s = false ->
       determine_next_agent s = Trainer)
      /\ (has_food_request s = true -> has_food_analysis s = false ->
          determine_next_agent s = FoodSpecialist)
      /\ (has_food_analysis s = true -> has_final_recommendation s = false ->
          determine_next_agent s = Trainer)
      /\ (has_food_request s = true \/ awaiting_food_request s = true ->
          has_food_request s = false \/ has_food_analysis s = true ->
          has_food_analysis s = false \/ has_final_recommendation s = true ->
          determine_next_agent s = Human))
  /\ In (determine_next_agent s) [Trainer; Nutritionist; FoodSpecialist; Human].
Proof.
  rewrite determine_next_agent_eq.
  destruct (profile_complete s), (has_nutrition_profile s),
    (is_meal_planning_request s), (has_food_request s),
    (awaiting_food_request s), (has_food_analysis s),
    (has_final_recommendation s); simpl;
    repeat split; intros; simpl; auto; try discriminate;
    repeat match goal with H : _ \/ _ |- _ => destruct H end;
    try discriminate; tauto.
Qed.

Lemma determine_next_agent_guard_chain_witness :
  determine_next_agent initial_state = Trainer
  /\ determine_next_agent ready_for_food_state = Trainer
  /\ determine_next_agent meal_plan_state = Nutritionist.
Proof.
  split; [|split].
  - apply (proj1 (determine_next_agent_guard_chain initial_state)). reflexivity.
  - apply (proj1 (proj1 (proj2 (proj2 (proj2
             (determine_next_agent_guard_chain ready_for_food_state))))
             eq_refl eq_refl eq_refl)); reflexivity.
  - apply (proj1 (proj2 (proj2 (determine_next_agent_guard_chain meal_plan_state))));
      reflexivity.
Defined.

(* ================================================================== *)
(** * The suspension boundary *)
(* ================================================================== *)

Lemma is_food_request_iff (user_input : string) :
  is_food_request user_input = true <->
  ((exists p, In p consumption_phrases /\ Text.occurs_in p (Text.lower user_input))
   /\ (exists f, In f specific_foods /\ Text.occurs_in f (Text.lower user_input)))
  \/ (exists num food, In num numerals /\ In food specific_foods
        /\ Text.occurs_in (num ++ " " ++ food) (Text.lower user_input)).
Proof.
  unfold is_food_request, has_consumption_intent, has_specific_food.
  rewrite orb_true_iff, andb_true_iff, !any_in_iff, has_quantity_food_iff.
  reflexivity.
Qed.

Lemma human_node_continue (s : State) (line now : string) :
  Text.str_in (Text.lower (Text.strip line)) exit_tokens = false ->
  human_node s line now =
  {| u_messages :=
       Some (messages s ++ [{| role := "user"; content := Text.strip line;
                               timestamp := now |}]);
     u_current_user_input := Some (Text.strip line);
     u_awaiting_user_input := Some false;
     u_user_profile := None; u_profile_complete := None;
     u_nutrition_profile := None; u_food_analysis := None;
     u_current_phase := None; u_next_agent := None;
     u_food_request :=
       Some (if is_food_request (Text.strip line) && negb (has_food_request s)
             then Some (Text.strip line) else food_request s);
     u_food_request_pending :=
       Some (is_food_request (Text.strip line) && profile_complete s);
     u_awaiting_food_request := None;
     u_final_recommendation := None; u_can_eat_verdict := None;
     u_session_complete := None |}.
Proof. intros H. unfold human_node. now rewrite H. Qed.

(** C3.  For an input that is not a termination token, [human_node]
    classifies the trimmed input as a food request exactly when its
    lowercased form contains a consumption phrase and a specific food
    term, or contains a numeral, a blank and a food term in a row.  When
    it is classified and no food request is stored, [food_request] becomes
    the input text as read (trimmed, case kept: the value also stored in
    [current_user_input]); otherwise the stored request stays.  "2 apples"
    and "can I eat a banana" are classified, "I love apples" is not. *)
Theorem human_node_classifies_food_request (s : State) (line now : string) :
  ~ In (Text.lower (Text.strip line)) exit_tokens ->
  (is_food_request (Text.strip line) = true <->
   ((exists p, In p consumption_phrases
               /\ Text.occurs_in p (Text.lower (Text.strip line)))
    /\ (exists f, In f specific_foods
                  /\ Text.occurs_in f (Text.lower (Text.strip line))))
   \/ (exists num food, In num numerals /\ In food specific_foods
         /\ Text.occurs_in (num ++ " " ++ food) (Text.lower (Text.strip line))))
  /\ (is_food_request (Text.strip line) = true -> has_food_request s = false ->
      food_request (merge s (human_node s line now)) = Some (Text.strip line)
      /\ current_user_input (merge s (human_node s line now)) = Text.strip line)
  /\ (is_food_request (Text.strip line) = false ->
      food_request (merge s (human_node s line now)) = food_request s)
  /\ awaiting_user_input (merge s (human_node s line now)) = false
  /\ is_food_request "2 apples" = true
  /\ is_food_request "I love apples" = false
  /\ is_food_request "can I eat a banana" = true.
Proof.
  intros Hx.
  assert (Hb : Text.str_in (Text.lower (Text.strip line)) exit_tokens = false).
  { destruct (Text.str_in _ _) eqn:E; [|reflexivity].
    apply str_in_iff in E. contradiction. }
  rewrite (human_node_continue s line now Hb). simpl.
  split; [apply is_food_request_iff|].
  split; [intros H1 H2; now rewrite H1, H2|].
  split; [intros H1; now rewrite H1|].
  repeat split.
Qed.

Lemma human_node_classifies_food_request_witness :
  ~ In (Text.lower (Text.strip "  Can I eat a banana ")) exit_tokens
  /\ food_request (merge initial_state
                     (human_node initial_state "  Can I eat a banana " "t1"))
     = Some "Can I eat a banana"%string.
Proof.
  split.
  - vm_compute. intuition discriminate.
  - apply (human_node_classifies_food_request initial_state
             "  Can I eat a banana " "t1").
    + vm_compute. intuition discriminate.
    + reflexivity.
    + reflexivity.
Defined.

(** C4.  When the trimmed, lowercased input is one of exit, quit, :q,
    bye, [human_node] returns only [current_user_input],
    [session_complete = True] and [awaiting_user_input = False]: the
    merged state is complete and no longer awaiting, and the history, the
    food request, the phase, the profile and every other field are what
    they were. *)
Theorem human_node_termination (s : State) (line now : string) :
  In (Text.lower (Text.strip line)) exit_tokens ->
  human_node s line now =
    {| u_messages := None;
       u_current_user_input := Some (Text.strip line);
       u_awaiting_user_input := Some false;
       u_user_profile := None; u_profile_complete := None;
       u_nutrition_profile := None; u_food_analysis := None;
       u_current_phase := None; u_next_agent := None;
       u_food_request := None; u_food_request_pending := None;
       u_awaiting_food_request := None;
       u_final_recommendation := None; u_can_eat_verdict := None;
       u_session_complete := Some true |}
  /\ merge s (human_node s line now) =
    {| messages := messages s;
       current_user_input := Text.strip line;
       awaiting_user_input := false;
       user_profile := user_profile s;
       profile_complete := profile_complete s;
       nutrition_profile := nutrition_profile s;
       food_analysis := food_analysis s;
       current_phase := current_phase s;
       next_agent := next_agent s;
       food_request := food_request s;
       food_request_pending := food_request_pending s;
       awaiting_food_request := awaiting_food_request s;
       final_recommendation := final_recommendation s;
       can_eat_verdict := can_eat_verdict s;
       session_complete := true |}
  /\ after_human (merge s (human_node s line now)) = Completion.
Proof.
  intros H. apply str_in_iff in H. unfold human_node. rewrite H.
  repeat split.
Qed.

Lemma human_node_termination_witness :
  In (Text.lower (Text.strip "  QuIt ")) exit_tokens
  /\ session_complete (merge suspended_state
                         (human_node suspended_state "  QuIt " "t1")) = true
  /\ messages (merge suspended_state
                 (human_node suspended_state "  QuIt " "t1")) = [].
Proof.
  assert (H : In (Text.lower (Text.strip "  QuIt ")) exit_tokens)
    by (vm_compute; auto).
  split; [exact H|].
  pose proof (human_node_termination suspended_state "  QuIt " "t1" H)
    as [_ [Hm _]].
  rewrite Hm. split; reflexivity.
Defined.

(* ================================================================== *)
(** * Steps and runs of the graph *)
(* ================================================================== *)

Lemma with_message_extends (s : State) who msg now :
  exists new, with_message s who msg now = messages s ++ new
              /\ (List.length new <= 1)%nat.
Proof.
  unfold with_message. destruct (Text.opt_truthy msg).
  - eexists. split; [reflexivity | simpl; lia].
  - exists []. split; [now rewrite app_nil_r | simpl; lia].
Qed.

(** Every node returns either no [messages] key or the stored history
    with at most one message appended. *)
Lemma node_update_extends (n : Node) (s : State) (i : Input) (u : Update) :
  node_update n s i = Some u ->
  exists new, messages (merge s u) = messages s ++ new
              /\ (List.length new <= 1)%nat.
Proof.
  destruct n, i; simpl; try discriminate.
  - intros H. injection H as <-. unfold human_node.
    destruct (Text.str_in _ _); simpl.
    + exists []. split; [now rewrite app_nil_r | simpl; lia].
    + eexists. split; [reflexivity | simpl; lia].
  - intros H. injection H as <-. simpl. apply with_message_extends.
  - destruct (nutritionist s llm); [|discriminate].
    intros H. injection H as <-. simpl. apply with_message_extends.
  - intros H. injection H as <-. simpl. apply with_message_extends.
  - intros H. injection H as <-. simpl.
    exists []. split; [now rewrite app_nil_r | simpl; lia].
Qed.

Lemma run_cons_inv (n : Node) (s : State) i rest n' s' us :
  run n s (i :: rest) = Some (n', s', us) ->
  exists n1 s1 u us1,
    step n s i = Some (n1, s1, u)
    /\ run n1 s1 rest = Some (n', s', us1) /\ us = u :: us1.
Proof.
  simpl. destruct (step n s i) as [[[n1 s1] u]|]; [|discriminate].
  destruct (run n1 s1 rest) as [[[n2 s2] us1]|] eqn:E; [|discriminate].
  intros H. injection H as <- <- <-. now exists n1, s1, u, us1.
Qed.

Lemma run_extends (inputs : list Input) :
  forall n s n' s' us,
    run n s inputs = Some (n', s', us) ->
    exists new, messages s' = messages s ++ new
                /\ (List.length new <= List.length inputs)%nat.
Proof.
  induction inputs as [|i rest IH]; intros n s n' s' us H.
  - simpl in H. injection H as _ <- _. exists [].
    split; [now rewrite app_nil_r | simpl; lia].
  - apply run_cons_inv in H. destruct H as (n1 & s1 & u & us1 & Hs & Hr & _).
    apply step_inv in Hs. destruct Hs as (Hu & -> & _).
    destruct (node_update_extends _ _ _ _ Hu) as (new1 & E1 & L1).
    destruct (IH _ _ _ _ _ Hr) as (new2 & E2 & L2).
    exists (new1 ++ new2). split.
    + now rewrite E2, E1, app_assoc.
    + rewrite length_app. simpl. lia.
Qed.

(** C5, the claim as stated fails: [merge] replaces [messages] like any
    other key.  [human_node] returns the whole history with the new entry
    at its end, and that list becomes the history; concatenating it onto
    the stored one, as the claim has it, would repeat the old entries. *)
Lemma merge_history_counterexample :
  messages greeted_state
    = [{| role := "trainer";
          content := "Hi there! I'm your fitness trainer lah! Let's see if you can eat that food. First, tell me your age?";
          timestamp := "t0" |}]
  /\ messages (merge greeted_state (human_node greeted_state "35" "t1"))
    = messages greeted_state
      ++ [{| role := "user"; content := "35"; timestamp := "t1" |}]
  /\ messages (merge greeted_state (human_node greeted_state "35" "t1"))
     <> messages greeted_state
        ++ or_else (u_messages (human_node greeted_state "35" "t1")) []
  /\ merge greeted_state (human_node greeted_state "35" "t1")
     <> merge_concat greeted_state (human_node greeted_state "35" "t1").
Proof.
  repeat split; try reflexivity.
  - intros H. apply (f_equal (@List.length Message)) in H. discriminate H.
  - intros H. apply (f_equal (fun st => List.length (messages st))) in H.
    discriminate H.
Qed.

(** C5, amended.  [merge] overwrites every key the update names,
    [messages] included (on every other field it agrees with the
    concatenating merge).  The history still only grows: each node
    returns the stored history with at most one entry appended, or no
    history at all, so over any run of the graph the old history is a
    prefix of the new one and its length never decreases. *)
Theorem history_only_grows :
  (forall s u,
      messages (merge s u) = or_else (u_messages u) (messages s)
      /\ current_user_input (merge s u) = current_user_input (merge_concat s u)
      /\ awaiting_user_input (merge s u) = awaiting_user_input (merge_concat s u)
      /\ user_profile (merge s u) = user_profile (merge_concat s u)
      /\ profile_complete (merge s u) = profile_complete (merge_concat s u)
      /\ nutrition_profile (merge s u) = nutrition_profile (merge_concat s u)
      /\ food_analysis (merge s u) = food_analysis (merge_concat s u)
      /\ current_phase (merge s u) = current_phase (merge_concat s u)
      /\ next_agent (merge s u) = next_agent (merge_concat s u)
      /\ food_request (merge s u) = food_request (merge_concat s u)
      /\ food_request_pending (merge s u) = food_request_pending (merge_concat s u)
      /\ awaiting_food_request (merge s u) = awaiting_food_request (merge_concat s u)
      /\ final_recommendation (merge s u) = final_recommendation (merge_concat s u)
      /\ can_eat_verdict (merge s u) = can_eat_verdict (merge_concat s u)
      /\ session_complete (merge s u) = session_complete (merge_concat s u))
  /\ (forall n s i u,
        node_update n s i = Some u ->
        exists new, messages (merge s u) = messages s ++ new
                    /\ (List.length new <= 1)%nat)
  /\ (forall n s inputs n' s' us,
        run n s inputs = Some (n', s', us) ->
        (exists new, messages s' = messages s ++ new)
        /\ (List.length (messages s) <= List.length (messages s'))%nat).
Proof.
  split; [intros s u; repeat split|].
  split; [exact node_update_extends|].
  intros n s inputs n' s' us H.
  destruct (run_extends _ _ _ _ _ _ H) as (new & E & _).
  split; [now exists new|]. rewrite E, length_app. lia.
Qed.

Lemma history_only_grows_witness :
  exists n' s' us,
    run Trainer initial_state sample_inputs = Some (n', s', us)
    /\ (List.length (messages initial_state) <= List.length (messages s'))%nat.
Proof.
  destruct (run Trainer initial_state sample_inputs) as [[[n' s'] us]|] eqn:E.
  - exists n', s', us. split; [reflexivity|].
    apply (proj2 (proj2 history_only_grows) _ _ _ _ _ _ E).
  - vm_compute in E. discriminate E.
Defined.

(* ================================================================== *)
(** * The final recommendation *)
(* ================================================================== *)

(** Only [trainer_node] names [final_recommendation], and it names
    [session_complete = True] with it. *)
Lemma node_update_final (n : Node) (s : State) (i : Input) (u : Update) :
  node_update n s i = Some u ->
  is_some (u_final_recommendation u) = true ->
  n = Trainer /\ u_session_complete u = Some true.
Proof.
  destruct n, i; simpl; try discriminate.
  - intros H. injection H as <-. unfold human_node.
    destruct (Text.str_in _ _); discriminate.
  - intros H. injection H as <-. simpl.
    destruct (Text.opt_truthy (r_final_recommendation (trainer s llm)));
      [auto | discriminate].
  - destruct (nutritionist s llm); [|discriminate].
    intros H. injection H as <-. discriminate.
  - intros H. injection H as <-. discriminate.
  - intros H. injection H as <-. discriminate.
Qed.

Lemma step_final_completion (n : Node) (s : State) (i : Input) n' s' u :
  step n s i = Some (n', s', u) ->
  is_some (u_final_recommendation u) = true ->
  n' = Completion /\ session_complete s' = true.
Proof.
  intros H Hf. apply step_inv in H. destruct H as (Hu & -> & Hn).
  destruct (node_update_final _ _ _ _ Hu Hf) as [-> Hc].
  assert (Hs : session_complete (merge s u) = true) by (simpl; now rewrite Hc).
  split; [|exact Hs].
  simpl in Hn. apply pick_some in Hn. subst n'.
  unfold after_trainer. now rewrite Hs.
Qed.

(** After the completion node nothing runs but the end of the graph. *)
Lemma run_from_completion (s : State) (inputs : list Input) n' s' us :
  run Completion s inputs = Some (n', s', us) -> count_final us = 0%nat.
Proof.
  destruct inputs as [|i rest]; simpl.
  - intros H. injection H as _ _ <-. reflexivity.
  - unfold step. destruct i; simpl; try discriminate.
    destruct rest as [|j rest]; simpl.
    + intros H. injection H as _ _ <-. reflexivity.
    + unfold step. simpl. discriminate.
Qed.

Lemma run_count_final (inputs : list Input) :
  forall n s n' s' us,
    run n s inputs = Some (n', s', us) -> (count_final us <= 1)%nat.
Proof.
  induction inputs as [|i rest IH]; intros n s n' s' us H.
  - simpl in H. injection H as _ _ <-. unfold count_final. simpl. lia.
  - apply run_cons_inv in H. destruct H as (n1 & s1 & u & us1 & Hs & Hr & ->).
    unfold count_final. simpl.
    destruct (is_some (u_final_recommendation u)) eqn:Hf.
    + destruct (step_final_completion _ _ _ _ _ _ Hs Hf) as [-> _].
      apply run_from_completion in Hr. unfold count_final in Hr.
      simpl. rewrite Hr. lia.
    + apply (IH _ _ _ _ _ Hr).
Qed.

Lemma trainer_branch_after_final (s : State) :
  has_final_recommendation s = true -> trainer_branch s <> FinalRecommendation.
Proof.
  unfold has_final_recommendation, trainer_branch. intros H. rewrite H.
  rewrite andb_false_r.
  destruct (Text.opt_truthy (food_request s) && negb (is_some (food_analysis s)));
    [discriminate|].
  destruct (profile_complete s && is_some (nutrition_profile s)
            && negb (Text.opt_truthy (food_request s))); discriminate.
Qed.

(** [trainer] on a state that already holds a final recommendation never
    reaches [_generate_final_recommendation]. *)
Lemma trainer_after_final (s : State) (llm : option TrainerResult) :
  has_final_recommendation s = true ->
  trainer s llm =
  match trainer_branch s with
  | AskForFood => _ask_for_food_request s
  | ProfileCollection =>
      _handle_profile_collection s (current_user_input s) (user_profile s) llm
  | _ =>
      {| r_message := Some "Let me get our food specialist to analyze that for you!"%string;
         r_user_profile := None; r_profile_complete := None;
         r_current_phase := None;
         r_awaiting_user_input := Some false;
         r_awaiting_food_request := None; r_food_request := None;
         r_final_recommendation := None; r_can_eat_verdict := None |}
  end.
Proof.
  intros H. apply trainer_branch_after_final in H. unfold trainer.
  destruct (trainer_branch s); [contradiction | reflexivity ..].
Qed.

(** C6.  Over any run of the graph at most one update names
    [final_recommendation]; an update that names it carries
    [session_complete = True], so the merged state is complete and the
    node that runs next is the completion node; and on a state whose
    [final_recommendation] is already set, [trainer] does not take its
    final-recommendation branch: no recommendation is generated anew. *)
Theorem final_recommendation_set_once :
  (forall n s inputs n' s' us,
      run n s inputs = Some (n', s', us) -> (count_final us <= 1)%nat)
  /\ (forall n s i u,
        node_update n s i = Some u ->
        is_some (u_final_recommendation u) = true ->
        session_complete (merge s u) = true)
  /\ (forall n s i n' s' u,
        step n s i = Some (n', s', u) ->
        is_some (u_final_recommendation u) = true ->
        session_complete s' = true /\ n' = Completion)
  /\ (forall s llm,
        has_final_recommendation s = true ->
        trainer_branch s <> FinalRecommendation
        /\ trainer s llm =
           match trainer_branch s with
           | AskForFood => _ask_for_food_request s
           | ProfileCollection =>
               _handle_profile_collection s (current_user_input s)
                 (user_profile s) llm
           | _ =>
               {| r_message := Some "Let me get our food specialist to analyze that for you!"%string;
                  r_user_profile := None; r_profile_complete := None;
                  r_current_phase := None;
                  r_awaiting_user_input := Some false;
                  r_awaiting_food_request := None; r_food_request := None;
                  r_final_recommendation := None; r_can_eat_verdict := None |}
           end).
Proof.
  split; [intros n s inputs; apply run_count_final|].
  split.
  { intros n s i u Hu Hf.
    destruct (node_update_final _ _ _ _ Hu Hf) as [_ Hc]. simpl. now rewrite Hc. }
  split.
  { intros n s i n' s' u H Hf.
    destruct (step_final_completion _ _ _ _ _ _ H Hf). auto. }
  intros s llm Hf. split.
  - now apply trainer_branch_after_final.
  - now apply trainer_after_final.
Qed.

Lemma final_recommendation_set_once_witness :
  exists n' s' us,
    run Trainer initial_state sample_inputs = Some (n', s', us)
    /\ (count_final us <= 1)%nat
    /\ has_final_recommendation s' = true
    /\ trainer_branch s' <> FinalRecommendation.
Proof.
  destruct (run Trainer initial_state sample_inputs) as [[[n' s'] us]|] eqn:E.
  - exists n', s', us. split; [reflexivity|].
    split; [apply (proj1 final_recommendation_set_once _ _ _ _ _ _ E)|].
    assert (Hf : has_final_recommendation s' = true).
    { vm_compute in E. injection E as _ <- _. reflexivity. }
    split; [exact Hf|].
    apply (proj2 (proj2 (proj2 final_recommendation_set_once)) s' None Hf).
  - vm_compute in E. discriminate E.
Defined.

(* ================================================================== *)
(** * The food request *)
(* ================================================================== *)

Lemma human_node_keeps_food_request (s : State) (line now : string) :
  has_food_request s = true ->
  food_request (merge s (human_node s line now)) = food_request s.
Proof.
  unfold has_food_request, human_node. intros H.
  destruct (Text.str_in _ _); simpl; [reflexivity|].
  now rewrite H, andb_false_r.
Qed.

Lemma step_keeps_food_request (n : Node) (s : State) (i : Input) n' s' u :
  step n s i = Some (n', s', u) ->
  has_food_request s = true ->
  food_request s' = food_request s.
Proof.
  intros H Hf. apply step_inv in H. destruct H as (Hu & -> & _).
  destruct n, i; simpl in Hu; try discriminate.
  - injection Hu as <-. now apply human_node_keeps_food_request.
  - injection Hu as <-. reflexivity.
  - destruct (nutritionist s llm); [|discriminate]. injection Hu as <-. reflexivity.
  - injection Hu as <-. reflexivity.
  - injection Hu as <-. reflexivity.
Qed.

Lemma run_keeps_food_request (inputs : list Input) :
  forall n s n' s' us,
    run n s inputs = Some (n', s', us) ->
    has_food_request s = true ->
    food_request s' = food_request s.
Proof.
  induction inputs as [|i rest IH]; intros n s n' s' us H Hf.
  - simpl in H. now injection H as _ <- _.
  - apply run_cons_inv in H. destruct H as (n1 & s1 & u & us1 & Hs & Hr & _).
    pose proof (step_keeps_food_request _ _ _ _ _ _ Hs Hf) as E1.
    rewrite <- E1. apply (IH _ _ _ _ _ Hr).
    unfold has_food_request in *. now rewrite E1.
Qed.

(** C9, the claim as stated fails: the food specialist produces the
    analysis and leaves [food_request] as it was; only
    [food_request_pending] is reset. *)
Lemma food_request_survives_analysis :
  food_request food_requested_state = Some "2 apples"%string
  /\ has_food_analysis
       (merge food_requested_state
          (food_specialist_node food_requested_state
             (food_specialist food_requested_state None) "t5")) = true
  /\ food_request
       (merge food_requested_state
          (food_specialist_node food_requested_state
             (food_specialist food_requested_state None) "t5"))
     = Some "2 apples"%string
  /\ food_request
       (merge food_requested_state
          (food_specialist_node food_requested_state
             (food_specialist food_requested_state None) "t5"))
     <> None.
Proof. repeat split; try reflexivity. discriminate. Qed.

(** C9, amended.  Once [food_request] is set (a non-empty string),
    [human_node] leaves it unchanged whatever the new input is classified
    as.  The food specialist node does not clear it either: it stores the
    analysis and resets [food_request_pending] only.  No node of the
    graph changes a food request that is set, so it stays the same to the
    end of the run. *)
Theorem food_request_kept_once_set (s : State) :
  has_food_request s = true ->
  (forall line now,
      food_request (merge s (human_node s line now)) = food_request s)
  /\ (forall result now,
        food_request (merge s (food_specialist_node s result now)) = food_request s
        /\ food_request_pending (merge s (food_specialist_node s result now)) = false
        /\ food_analysis (merge s (food_specialist_node s result now))
           = or_else (f_food_analysis result) (food_analysis s))
  /\ (forall n inputs n' s' us,
        run n s inputs = Some (n', s', us) -> food_request s' = food_request s).
Proof.
  intros Hf. split; [|split].
  - intros line now. now apply human_node_keeps_food_request.
  - intros result now. repeat split.
  - intros n inputs n' s' us H. apply (run_keeps_food_request _ _ _ _ _ _ H Hf).
Qed.

Lemma food_request_kept_once_set_witness :
  has_food_request food_requested_state = true
  /\ food_request (merge food_requested_state
                     (human_node food_requested_state "3 bananas" "t9"))
     = Some "2 apples"%string.
Proof.
  split; [reflexivity|].
  apply (proj1 (food_request_kept_once_set food_requested_state eq_refl)
           "3 bananas"%string "t9"%string).
Defined.

(* ================================================================== *)
(** * The profile *)
(* ================================================================== *)

Lemma validate_age_ok (v w : Py.pyval) : validate_age v = Some w -> age_ok w = true.
Proof.
  unfold validate_age. destruct (Py.int v) as [a|]; [|discriminate].
  destruct ((1 <=? a) && (a <=? 120)) eqn:E; [|discriminate].
  intros H. injection H as <-. exact E.
Qed.

Lemma validate_choice_ok (choices : list string) (v w : Py.pyval) :
  validate_choice choices v = Some w ->
  match w with Py.PStr s => Text.str_in s choices | _ => false end = true.
Proof.
  unfold validate_choice. destruct (Text.str_in _ choices) eqn:E; [|discriminate].
  intros H. injection H as <-. exact E.
Qed.

Lemma validate_measure_ok (lo hi : Q) (v w : Py.pyval) :
  validate_measure lo hi v = Some w ->
  match w with Py.PFloat x => in_range lo hi x | _ => false end = true.
Proof.
  unfold validate_measure. destruct (Py.float v) as [x|]; [|discriminate].
  destruct (in_range lo hi x) eqn:E; [|discriminate].
  intros H. injection H as <-. exact E.
Qed.

Lemma validate_first_meal_ok (v w : Py.pyval) :
  validate_first_meal v = Some w -> first_meal_ok w = true.
Proof.
  unfold validate_first_meal.
  destruct v; try (intros H; injection H as <-; reflexivity);
    repeat match goal with
           | |- (if ?c then _ else _) = _ -> _ => destruct c
           end;
    try discriminate; intros H; injection H as <-; reflexivity.
Qed.

(** What [_validate_profile_data] lets through passes the checks. *)
Lemma validate_profile_valid (raw : UserProfile) :
  profile_valid (_validate_profile_data raw) = true.
Proof.
  unfold profile_valid, _validate_profile_data, entry_ok, and_then. simpl.
  repeat (apply andb_true_intro; split).
  - destruct (age raw) as [v|]; [|reflexivity].
    destruct (validate_age v) eqn:E; [now apply validate_age_ok in E | reflexivity].
  - destruct (sex raw) as [v|]; [|reflexivity].
    destruct (validate_choice _ v) eqn:E; [|reflexivity].
    apply validate_choice_ok in E. destruct p; try discriminate. exact E.
  - destruct (height_cm raw) as [v|]; [|reflexivity].
    destruct (validate_measure _ _ v) eqn:E; [|reflexivity].
    apply validate_measure_ok in E. destruct p; try discriminate. exact E.
  - destruct (weight_kg raw) as [v|]; [|reflexivity].
    destruct (validate_measure _ _ v) eqn:E; [|reflexivity].
    apply validate_measure_ok in E. destruct p; try discriminate. exact E.
  - destruct (activity_level raw) as [v|]; [|reflexivity].
    destruct (validate_choice _ v) eqn:E; [|reflexivity].
    apply validate_choice_ok in E. destruct p; try discriminate. exact E.
  - destruct (first_meal raw) as [v|]; [|reflexivity].
    destruct (validate_first_meal v) eqn:E;
      [now apply validate_first_meal_ok in E | reflexivity].
Qed.

Lemma entry_ok_first_some check (a b : option Py.pyval) :
  entry_ok check a = true -> entry_ok check b = true ->
  entry_ok check (first_some a b) = true.
Proof. destruct a; simpl; auto. Qed.

(** [{**current, **cleaned}] of two profiles that pass passes. *)
Lemma overlay_valid (current cleaned : UserProfile) :
  profile_valid current = true -> profile_valid cleaned = true ->
  profile_valid (overlay current cleaned) = true.
Proof.
  unfold profile_valid, overlay. simpl.
  rewrite !andb_true_iff.
  intros (((((A1 & A2) & A3) & A4) & A5) & A6) (((((B1 & B2) & B3) & B4) & B5) & B6).
  repeat split; now apply entry_ok_first_some.
Qed.

Lemma missing_fields_nil (p : UserProfile) :
  Nat.eqb (List.length (missing_fields p)) 0 = all_present p.
Proof.
  unfold missing_fields, all_present, required_fields, profile_get. simpl.
  destruct (age p), (sex p), (height_cm p), (weight_kg p), (activity_level p),
    (first_meal p); reflexivity.
Qed.

(** The fallback of [_handle_profile_collection] derives the flag from
    the stored profile: true exactly when no required key is missing. *)
Lemma fallback_profile_complete (s : State) (user_input : string)
    (current_profile : UserProfile) :
  r_profile_complete (_handle_profile_collection s user_input current_profile None)
  = Some (all_present current_profile)
  /\ r_user_profile (_handle_profile_collection s user_input current_profile None)
     = Some current_profile.
Proof.
  unfold _handle_profile_collection.
  destruct (profile_truthy current_profile) eqn:E; simpl.
  - now rewrite missing_fields_nil.
  - split; [|reflexivity]. unfold profile_truthy in E. unfold all_present.
    destruct (age current_profile); [discriminate|]. reflexivity.
Qed.

(** C7, the code departs from the claim.  When the language model
    answers, [profile_complete] is the flag of its reply; it is not
    computed again from the profile that validation leaves.  A reply that
    carries six entries, one of them out of range, and says the profile is
    complete leaves [profile_complete = True] with [height_cm] missing; so
    does a reply that carries an age only.  A reply that carries six
    valid entries and says it is not complete leaves the flag false. *)
Theorem profile_complete_follows_reply :
  (profile_complete
     (merge initial_state
        (trainer_node initial_state
           (trainer initial_state (Some overconfident_reply)) "t0"))
   = true
   /\ missing_fields
        (user_profile
           (merge initial_state
              (trainer_node initial_state
                 (trainer initial_state (Some overconfident_reply)) "t0")))
      = ["height_cm"]%string
   /\ profile_complete_derived
        (user_profile
           (merge initial_state
              (trainer_node initial_state
                 (trainer initial_state (Some overconfident_reply)) "t0")))
      = false)
  /\ (profile_complete
        (merge initial_state
           (trainer_node initial_state (trainer initial_state (Some hasty_reply)) "t0"))
      = true
      /\ missing_fields
           (user_profile
              (merge initial_state
                 (trainer_node initial_state
                    (trainer initial_state (Some hasty_reply)) "t0")))
         = ["sex"; "height_cm"; "weight_kg"; "activity_level"; "first_meal"]%string)
  /\ (profile_complete
        (merge initial_state
           (trainer_node initial_state (trainer initial_state (Some modest_reply)) "t0"))
      = false
      /\ profile_complete_derived
           (user_profile
              (merge initial_state
                 (trainer_node initial_state
                    (trainer initial_state (Some modest_reply)) "t0")))
         = true).
Proof. repeat split. Qed.

(* ================================================================== *)
(** * The nutritionist's metrics *)
(* ================================================================== *)

Lemma float_raises (v : Py.pyval) (e : Py.exn) :
  Py.float v = Py.Raise e -> e = Py.TypeError \/ e = Py.ValueError.
Proof.
  destruct v; simpl; try discriminate.
  - intros H. injection H as <-. now left.
  - destruct (Py.float_of_str s); [discriminate|].
    intros H. injection H as <-. now right.
Qed.

Lemma int_raises (v : Py.pyval) (e : Py.exn) :
  Py.int v = Py.Raise e -> e = Py.TypeError \/ e = Py.ValueError.
Proof.
  destruct v; simpl; try discriminate.
  - intros H. injection H as <-. now left.
  - destruct (Py.int_of_str s); [discriminate|].
    intros H. injection H as <-. now right.
Qed.

(** The [try] block either computes the profile from its five entries or
    raises; it raises [ZeroDivisionError] only with all five entries read
    and a height of zero. *)
Lemma basic_metrics_body_cases (p : UserProfile) :
  (exists wv weight hv height av a sx act,
      weight_kg p = Some wv /\ Py.float wv = Py.Ok weight
      /\ height_cm p = Some hv /\ Py.float hv = Py.Ok height
      /\ age p = Some av /\ Py.int av = Py.Ok a
      /\ sex p = Some sx /\ activity_level p = Some act
      /\ ((Qeq_bool (height / 100 * (height / 100)) 0 = true
           /\ basic_metrics_body p = Py.Raise Py.ZeroDivisionError)
          \/ (Qeq_bool (height / 100 * (height / 100)) 0 = false
              /\ exists np,
                  basic_metrics_body p = Py.Ok np
                  /\ target_calories np
                     = target_of (bmr_of weight (height / 100) a sx
                                  * _get_activity_multiplier act))))
  \/ (exists e, basic_metrics_body p = Py.Raise e
                /\ (e = Py.KeyError \/ e = Py.ValueError \/ e = Py.TypeError)
                /\ (weight_kg p = None \/ height_cm p = None \/ age p = None
                    \/ sex p = None \/ activity_level p = None
                    \/ (exists v, weight_kg p = Some v /\ Py.float v = Py.Raise e)
                    \/ (exists v, height_cm p = Some v /\ Py.float v = Py.Raise e)
                    \/ (exists v, age p = Some v /\ Py.int v = Py.Raise e))).
Proof.
  unfold basic_metrics_body.
  destruct (weight_kg p) as [wv|] eqn:Ew; simpl;
    [|right; exists Py.KeyError; intuition].
  destruct (Py.float wv) as [weight|e] eqn:Fw; simpl.
  2:{ right. exists e. split; [reflexivity|]. split.
      - destruct (float_raises _ _ Fw); subst; auto.
      - do 5 right. left. now exists wv. }
  destruct (height_cm p) as [hv|] eqn:Eh; simpl;
    [|right; exists Py.KeyError; intuition].
  destruct (Py.float hv) as [height|e] eqn:Fh; simpl.
  2:{ right. exists e. split; [reflexivity|]. split.
      - destruct (float_raises _ _ Fh); subst; auto.
      - do 6 right. left. now exists hv. }
  destruct (age p) as [av|] eqn:Ea; simpl;
    [|right; exists Py.KeyError; intuition].
  destruct (Py.int av) as [a|e] eqn:Fa; simpl.
  2:{ right. exists e. split; [reflexivity|]. split.
      - destruct (int_raises _ _ Fa); subst; auto.
      - do 7 right. now exists av. }
  destruct (sex p) as [sx|] eqn:Es; simpl;
    [|right; exists Py.KeyError; intuition].
  destruct (activity_level p) as [act|] eqn:Eact; simpl;
    [|right; exists Py.KeyError; intuition].
  left. exists wv, weight, hv, height, av, a, sx, act.
  repeat (split; [reflexivity || assumption|]).
  unfold divide.
  destruct (Qeq_bool (height / 100 * (height / 100)) 0) eqn:Z; simpl.
  - left. auto.
  - right. split; [reflexivity|]. eexists. split; reflexivity.
Qed.

(** Whatever [_calculate_basic_metrics] returns has a target of at least
    1200 calories. *)
Lemma target_at_least_1200 (p : UserProfile) (np : NutritionProfile) :
  _calculate_basic_metrics p = Py.Ok np -> 1200 <= target_calories np.
Proof.
  unfold _calculate_basic_metrics.
  destruct (basic_metrics_body_cases p)
    as [(wv & weight & hv & height & av & a & sx & act & _ & _ & _ & _ & _ & _ & _ & _
         & [[_ E] | [_ (np0 & E & T)]])
       | (e & E & [-> | [-> | ->]] & _)];
    rewrite E; try discriminate.
  - intros H. injection H as <-. rewrite T. unfold target_of. apply Z.le_max_r.
  - intros H. injection H as <-. simpl. lia.
  - intros H. injection H as <-. simpl. lia.
  - intros H. injection H as <-. simpl. lia.
Qed.

(** A missing entry among the five that are read, or a weight, height or
    age that [float()] or [int()] rejects, gives the fallback profile. *)
Lemma fallback_on_bad_entry (p : UserProfile) :
  weight_kg p = None \/ height_cm p = None \/ age p = None
  \/ sex p = None \/ activity_level p = None
  \/ (exists v e, weight_kg p = Some v /\ Py.float v = Py.Raise e)
  \/ (exists v e, height_cm p = Some v /\ Py.float v = Py.Raise e)
  \/ (exists v e, age p = Some v /\ Py.int v = Py.Raise e) ->
  _calculate_basic_metrics p = Py.Ok fallback_metrics
  /\ target_calories fallback_metrics = 1300.
Proof.
  intros H. split; [|reflexivity]. unfold _calculate_basic_metrics.
  destruct (basic_metrics_body_cases p)
    as [(wv & weight & hv & height & av & a & sx & act
         & Ew & Fw & Eh & Fh & Ea & Fa & Es & Eact & _)
       | (e & E & [-> | [-> | ->]] & _)];
    [|now rewrite E ..].
  exfalso.
  destruct H as [H | [H | [H | [H | [H | [H | [H | H]]]]]]];
    try congruence.
  - destruct H as (v & e & H1 & H2). congruence.
  - destruct H as (v & e & H1 & H2). congruence.
  - destruct H as (v & e & H1 & H2). congruence.
Qed.

Lemma height_in_range_nonzero (h : Q) :
  in_range 80 250 h = true -> Qeq_bool (h / 100 * (h / 100)) 0 = false.
Proof.
  unfold in_range. rewrite andb_true_iff. intros [Hlo _].
  apply Qle_bool_iff in Hlo.
  destruct (Qeq_bool (h / 100 * (h / 100)) 0) eqn:E; [|reflexivity].
  apply Qeq_bool_iff in E. exfalso.
  assert (Hp : (0 < h / 100)%Q).
  { apply Qlt_shift_div_l; [reflexivity|].
    apply Qlt_le_trans with (y := 80%Q); [reflexivity | exact Hlo]. }
  pose proof (Qmult_lt_0_compat _ _ Hp Hp) as Hpp.
  rewrite E in Hpp. discriminate Hpp.
Qed.

(** On a profile that passed validation and holds the five entries, the
    target is [max(round(tdee - 500), 1200)]. *)
Lemma target_of_valid_profile (p : UserProfile) (w h : Q) (a : Z)
    (sx act : Py.pyval) :
  weight_kg p = Some (Py.PFloat w) -> height_cm p = Some (Py.PFloat h) ->
  age p = Some (Py.PInt a) -> sex p = Some sx -> activity_level p = Some act ->
  profile_valid p = true ->
  exists np,
    _calculate_basic_metrics p = Py.Ok np
    /\ target_calories np
       = Z.max (Py.round (bmr_of w (h / 100) a sx * _get_activity_multiplier act - 500))
               1200.
Proof.
  intros Ew Eh Ea Es Eact Hv.
  assert (Hh : in_range 80 250 h = true).
  { unfold profile_valid in Hv. rewrite Eh in Hv. simpl in Hv.
    rewrite !andb_true_iff in Hv. tauto. }
  apply height_in_range_nonzero in Hh.
  unfold _calculate_basic_metrics.
  destruct (basic_metrics_body_cases p)
    as [(wv & weight & hv & height & av & a0 & sx0 & act0
         & Ew' & Fw & Eh' & Fh & Ea' & Fa & Es' & Eact' & HH)
       | (e & E & _ & HH)].
  - rewrite Ew in Ew'. injection Ew' as <-. simpl in Fw. injection Fw as <-.
    rewrite Eh in Eh'. injection Eh' as <-. simpl in Fh. injection Fh as <-.
    rewrite Ea in Ea'. injection Ea' as <-. simpl in Fa. injection Fa as <-.
    rewrite Es in Es'. injection Es' as <-.
    rewrite Eact in Eact'. injection Eact' as <-.
    destruct HH as [[Z _] | [_ (np & E & T)]]; [congruence|].
    rewrite E. exists np. split; [reflexivity|]. exact T.
  - exfalso.
    destruct HH as [H | [H | [H | [H | [H | [H | [H | H]]]]]]];
      try congruence.
    + destruct H as (v & H1 & H2). rewrite Ew in H1. injection H1 as <-. discriminate.
    + destruct H as (v & H1 & H2). rewrite Eh in H1. injection H1 as <-. discriminate.
    + destruct H as (v & H1 & H2). rewrite Ea in H1. injection H1 as <-. discriminate.
Qed.

Example target_of_sample_profile :
  exists np, _calculate_basic_metrics sample_profile = Py.Ok np
             /\ target_calories np = 2056 /\ bmi_class np = "normal"%string.
Proof. eexists. repeat split. Qed.

(** A profile with a height of zero can reach the nutritionist: the
    dictionary returned for the final recommendation is stored without
    validation, and a later meal-planning request routes to the
    nutritionist, which raises. *)
Lemma zero_height_reachable :
  exists s us,
    run Trainer initial_state zero_height_inputs = Some (Nutritionist, s, us)
    /\ user_profile s = zero_height_profile
    /\ forall llm, nutritionist s llm = Py.Raise Py.ZeroDivisionError.
Proof.
  destruct (run Trainer initial_state zero_height_inputs) as [[[n s] us]|] eqn:E;
    vm_compute in E; [|discriminate E].
  injection E as <- <- <-. do 2 eexists. repeat split.
Qed.

(** C10, the code departs from the claim.  The handler of
    [_calculate_basic_metrics] names [KeyError], [ValueError] and
    [TypeError]; the division by the squared height raises
    [ZeroDivisionError], which it lets through.  On a profile with
    [height_cm = 0] the function, [nutritionist] and the nutritionist node
    raise instead of returning the fallback profile. *)
Theorem calculate_basic_metrics_zero_height :
  _calculate_basic_metrics zero_height_profile = Py.Raise Py.ZeroDivisionError
  /\ (forall llm, nutritionist zero_height_state llm = Py.Raise Py.ZeroDivisionError)
  /\ (forall llm now,
        node_update Nutritionist zero_height_state (InNutritionist llm now) = None).
Proof. repeat split. Qed.

(* ================================================================== *)
(** * The food catalogue *)
(* ================================================================== *)

Lemma related_iff (a name_l : string) :
  FoodDB.related a name_l = true <-> FoodDB.Related a name_l.
Proof.
  unfold FoodDB.related, FoodDB.Related.
  now rewrite !orb_true_iff, String.eqb_eq, !contains_iff, or_assoc.
Qed.

Lemma str_truthy_iff (s : string) : Text.str_truthy s = true <-> s <> ""%string.
Proof. destruct s; simpl; split; congruence. Qed.

Lemma item_matches_iff (phrase : string) (item : FoodDB.Item) :
  FoodDB.item_matches (Text.lower phrase) item = true <-> FoodDB.Matches phrase item.
Proof.
  unfold FoodDB.item_matches, FoodDB.Matches.
  rewrite orb_true_iff, related_iff. simpl existsb.
  rewrite orb_false_r, orb_true_iff, !andb_true_iff, !str_truthy_iff, !related_iff.
  split.
  - intros [H | [[H1 H2] | [H1 H2]]]; [now left | right ..].
    + destruct (FoodDB.food_name_singular _) as [al|] eqn:E; [|now elim H1].
      exists al. auto.
    + destruct (FoodDB.food_name_plural _) as [al|] eqn:E; [|now elim H1].
      exists al. auto.
  - intros [H | (al & [E | E] & H1 & H2)]; [now left | right ..].
    + left. rewrite E. auto.
    + right. rewrite E. auto.
Qed.

Lemma find_first {A} (f : A -> bool) (l : list A) (x : A) :
  find f l = Some x <->
  exists before after,
    l = before ++ x :: after /\ Forall (fun y => f y = false) before /\ f x = true.
Proof.
  induction l as [|y l IH]; simpl.
  - split; [discriminate|]. intros (b & a & E & _). destruct b; discriminate.
  - destruct (f y) eqn:Fy.
    + split.
      * intros H. injection H as <-. exists [], l. auto.
      * intros (b & a & E & Hb & Hx). destruct b as [|z b]; simpl in E.
        -- now injection E as <- _.
        -- injection E as <- _. inversion Hb; congruence.
    + rewrite IH. split.
      * intros (b & a & E & Hb & Hx). exists (y :: b), a. subst. auto.
      * intros (b & a & E & Hb & Hx). destruct b as [|z b]; simpl in E.
        -- injection E as <- _. congruence.
        -- injection E as <- ->. inversion Hb. now exists b, a.
Qed.

Lemma find_match_first (items : list FoodDB.Item) (phrase : string) (m : FoodDB.Item) :
  FoodDB.find_match items phrase = Some m <-> FoodDB.FirstMatch items phrase m.
Proof.
  unfold FoodDB.find_match, FoodDB.FirstMatch. rewrite find_first.
  split; intros (b & a & E & Hb & Hm); exists b, a; split; try assumption; split.
  - eapply Forall_impl; [|exact Hb]. simpl. intros it Hf Hc.
    apply item_matches_iff in Hc. congruence.
  - now apply item_matches_iff.
  - eapply Forall_impl; [|exact Hb]. simpl. intros it Hf.
    destruct (FoodDB.item_matches _ it) eqn:E'; [|reflexivity].
    apply item_matches_iff in E'. contradiction.
  - now apply item_matches_iff.
Qed.


(** An entry without any key has no calories for [float()]. *)
Lemma falsy_item_calories (m : FoodDB.Item) :
  FoodDB.item_truthy m = false ->
  Json.float (FoodDB.calories_entry m) = Py.Raise Py.TypeError.
Proof.
  unfold FoodDB.calories_entry, FoodDB.item_truthy.
  destruct (FoodDB.eaten m); simpl; [now rewrite orb_true_r | reflexivity].
Qed.


(** The three ways out of [calories_for] once the query is parsed and
    the catalogue searched. *)
Lemma calories_for_cases (items : list FoodDB.Item) (text : string) :
  FoodDB.calories_for items text
  = match FoodDB.find_match items (snd (FoodDB.parse_query text)) with
    | None => Py.Ok None
    | Some m =>
        match Json.float (FoodDB.calories_entry m) with
        | Py.Raise Py.TypeError | Py.Raise Py.ValueError => Py.Ok None
        | Py.Raise e => Py.Raise e
        | Py.Ok per_unit =>
            product <- F64.int_mul (fst (FoodDB.parse_query text)) per_unit ;;
            total <- F64.round product ;;
            Py.Ok (Some (total, or_else (FoodDB.food_entry_name m)
                                  (snd (FoodDB.parse_query text))))
        end
    end.
Proof.
  unfold FoodDB.calories_for.
  destruct (FoodDB.parse_query text) as [qty phrase]. simpl.
  destruct (FoodDB.find_match items phrase) as [m|]; [|reflexivity].
  destruct (FoodDB.item_truthy m) eqn:T; [reflexivity|].
  now rewrite (falsy_item_calories _ T).
Qed.

Lemma calories_for_some (items : list FoodDB.Item) (text : string) (c : Z) (n : string) :
  FoodDB.calories_for items text = Py.Ok (Some (c, n)) <->
  exists m per_unit product,
    FoodDB.FirstMatch items (snd (FoodDB.parse_query text)) m
    /\ Json.float (FoodDB.calories_entry m) = Py.Ok per_unit
    /\ F64.int_mul (fst (FoodDB.parse_query text)) per_unit = Py.Ok product
    /\ F64.round product = Py.Ok c
    /\ n = or_else (FoodDB.food_entry_name m) (snd (FoodDB.parse_query text)).
Proof.
  rewrite calories_for_cases.
  destruct (FoodDB.find_match items _) as [m|] eqn:E.
  - apply find_match_first in E. split.
    + destruct (Json.float (FoodDB.calories_entry m)) as [x|e] eqn:F.
      * destruct (F64.int_mul _ x) as [product|] eqn:P; [|discriminate].
        simpl. destruct (F64.round product) as [total|] eqn:R; [|discriminate].
        simpl. intros H. injection H as <- <-. now exists m, x, product.
      * destruct e; discriminate.
    + intros (m' & x & product & Hm' & F & P & R & ->).
      apply find_match_first in E, Hm'. rewrite E in Hm'. injection Hm' as <-.
      rewrite F, P. simpl. rewrite R. reflexivity.
  - split; [discriminate|]. intros (m' & x & product & Hm' & _).
    apply find_match_first in Hm'. congruence.
Qed.



Lemma span_split (p : ascii -> bool) (s a b : string) :
  FoodDB.span p s = (a, b) ->
  s = (a ++ b)%string /\ FoodDB.all_chars p a = true /\ stops_at p b.
Proof.
  revert a b. induction s as [|c s IH]; simpl; intros a b.
  - intros H. injection H as <- <-. simpl. auto.
  - destruct (p c) eqn:Pc.
    + destruct (FoodDB.span p s) as [a0 b0]. intros H. injection H as <- <-.
      destruct (IH a0 b0 eq_refl) as (-> & Ha & Hb). simpl. rewrite Pc. auto.
    + intros H. injection H as <- <-. simpl. auto.
Qed.





(** What a successful match says about the text. *)
Lemma match_quantity_sound (t : string) (q : Z) (name : string) :
  FoodDB.match_quantity t = Some (q, name) ->
  exists lead ds ws rest,
    t = (lead ++ ds ++ ws ++ rest)%string
    /\ FoodDB.all_chars Text.is_space lead = true
    /\ FoodDB.all_chars Text.is_digit ds = true
    /\ Py.nat_literal ds = Some q
    /\ FoodDB.all_chars Text.is_space ws = true /\ ws <> ""%string
    /\ FoodDB.all_chars FoodDB.phrase_char rest = true
    /\ name = Text.strip rest.
Proof.
  unfold FoodDB.match_quantity.
  destruct (FoodDB.span Text.is_space t) as [lead r0] eqn:E0.
  destruct (FoodDB.span Text.is_digit r0) as [ds r1] eqn:E1.
  destruct (FoodDB.span Text.is_space r1) as [ws r2] eqn:E2.
  apply span_split in E0, E1, E2.
  destruct E0 as (-> & L & _), E1 as (-> & D & _), E2 as (-> & W & _).
  destruct (Py.nat_literal ds) as [qty|] eqn:N; [|discriminate].
  destruct (Text.str_truthy ws) eqn:Tw; simpl; [|discriminate].
  destruct (FoodDB.all_chars FoodDB.phrase_char r2) eqn:P; simpl; [|discriminate].
  destruct (negb (Text.str_truthy r2) && _); [discriminate|].
  intros H. injection H as <- <-.
  exists lead, ds, ws, r2. apply str_truthy_iff in Tw. auto 10.
Qed.







(* ================================================================== *)
(** * What a run of the graph keeps *)
(* ================================================================== *)

(** The five ways a node produces an update. *)
Lemma node_update_cases (n : Node) (s : State) (i : Input) (u : Update) :
  node_update n s i = Some u ->
  (exists line now, n = Human /\ i = InHuman line now /\ u = human_node s line now)
  \/ (exists llm now, n = Trainer /\ i = InTrainer llm now
                      /\ u = trainer_node s (trainer s llm) now)
  \/ (exists llm now r, n = Nutritionist /\ i = InNutritionist llm now
                        /\ nutritionist s llm = Py.Ok r
                        /\ u = nutritionist_node s r now)
  \/ (exists llm now, n = FoodSpecialist /\ i = InFoodSpecialist llm now
                      /\ u = food_specialist_node s (food_specialist s llm) now)
  \/ (n = Completion /\ i = InCompletion /\ u = completion_node s).
Proof.
  destruct n, i; simpl; try discriminate; intros H.
  - left. injection H as <-. now repeat eexists.
  - right; left. injection H as <-. now repeat eexists.
  - right; right; left. destruct (nutritionist s llm) as [r|] eqn:E; [|discriminate].
    injection H as <-. exists llm, now, r. auto.
  - right; right; right; left. injection H as <-. now repeat eexists.
  - right; right; right; right. injection H as <-. auto.
Qed.

(** A property every step keeps is kept by every run. *)
Lemma run_invariant (P : Node -> State -> Prop) :
  (forall n s i n' s' u, step n s i = Some (n', s', u) -> P n s -> P n' s') ->
  forall inputs n s n' s' us,
    run n s inputs = Some (n', s', us) -> P n s -> P n' s'.
Proof.
  intros Hstep. induction inputs as [|i rest IH]; intros n s n' s' us H HP.
  - simpl in H. injection H as <- <- _. exact HP.
  - apply run_cons_inv in H. destruct H as (n1 & s1 & u & us1 & Hs & Hr & _).
    apply (IH _ _ _ _ _ Hr). apply (Hstep _ _ _ _ _ _ Hs HP).
Qed.

Ltac by_node H :=
  apply step_inv in H; destruct H as (H & -> & _);
  apply node_update_cases in H;
  destruct H as [(? & ? & -> & -> & ->)
                | [(? & ? & -> & -> & ->)
                  | [(? & ? & ? & -> & -> & ? & ->)
                    | [(? & ? & -> & -> & ->) | (-> & -> & ->)]]]].

Lemma human_node_session_complete (s : State) line now :
  session_complete s = true ->
  session_complete (merge s (human_node s line now)) = true.
Proof.
  intros H. unfold human_node. destruct (Text.str_in _ _); simpl; auto.
Qed.

Lemma trainer_node_session_complete (s : State) result now :
  session_complete s = true ->
  session_complete (merge s (trainer_node s result now)) = true.
Proof.
  intros H. simpl. destruct (Text.opt_truthy (r_final_recommendation result)); auto.
Qed.

(** No node ever stores [session_complete = False]: once a session is
    complete it stays complete to the end of the run. *)
Theorem session_complete_is_final (n : Node) (s : State) (inputs : list Input)
    n' s' us :
  run n s inputs = Some (n', s', us) ->
  session_complete s = true ->
  session_complete s' = true.
Proof.
  apply (run_invariant (fun _ st => session_complete st = true)).
  clear. intros n s i n' s' u H Hc. by_node H.
  - now apply human_node_session_complete.
  - now apply trainer_node_session_complete.
  - exact Hc.
  - exact Hc.
  - reflexivity.
Qed.

Lemma session_complete_is_final_witness :
  session_complete left_state = true
  /\ exists n' s' us,
      run Human left_state [InHuman "35" "t2"; InCompletion] = Some (n', s', us)
      /\ session_complete s' = true.
Proof.
  split; [reflexivity|].
  destruct (run Human left_state [InHuman "35" "t2"; InCompletion])
    as [[[n' s'] us]|] eqn:E.
  - exists n', s', us. split; [reflexivity|].
    apply (session_complete_is_final _ _ _ _ _ _ E). reflexivity.
  - vm_compute in E. discriminate E.
Defined.

(** No node stores [awaiting_food_request] or [next_agent].
    [_ask_for_food_request] does return [awaiting_food_request = True],
    but [trainer_node] does not copy that key, so over any run both
    fields keep the value they started with. *)
Theorem flow_flags_never_written (n : Node) (s : State) (inputs : list Input)
    n' s' us :
  run n s inputs = Some (n', s', us) ->
  awaiting_food_request s' = awaiting_food_request s
  /\ next_agent s' = next_agent s
  /\ r_awaiting_food_request (_ask_for_food_request s') = Some true.
Proof.
  intros H. split; [|split; [|reflexivity]].
  - refine (run_invariant
              (fun _ st => awaiting_food_request st = awaiting_food_request s)
              _ _ _ _ _ _ _ H eq_refl).
    clear. intros n s0 i n' s' u H Hc. by_node H; try exact Hc.
    unfold human_node. destruct (Text.str_in _ _); exact Hc.
  - refine (run_invariant (fun _ st => next_agent st = next_agent s)
              _ _ _ _ _ _ _ H eq_refl).
    clear. intros n s0 i n' s' u H Hc. by_node H; try exact Hc.
    unfold human_node. destruct (Text.str_in _ _); exact Hc.
Qed.

Lemma flow_flags_never_written_witness :
  exists n' s' us,
    run Trainer initial_state sample_inputs = Some (n', s', us)
    /\ awaiting_food_request s' = false.
Proof.
  destruct (run Trainer initial_state sample_inputs) as [[[n' s'] us]|] eqn:E.
  - exists n', s', us. split; [reflexivity|].
    apply (proj1 (flow_flags_never_written _ _ _ _ _ _ E)).
  - vm_compute in E. discriminate E.
Defined.

Lemma food_specialist_analysis (s : State) llm :
  is_some (or_else (f_food_analysis (food_specialist s llm)) (food_analysis s))
  = has_food_request s.
Proof.
  unfold food_specialist, has_food_request.
  destruct (Text.opt_truthy (food_request s)); simpl; [|reflexivity].
  unfold _generate_complete_food_analysis. destruct llm; reflexivity.
Qed.

(** A food analysis is never stored without a food request: if the
    implication holds at the start of a run it holds at its end. *)
Theorem analysis_implies_request (n : Node) (s : State) (inputs : list Input)
    n' s' us :
  run n s inputs = Some (n', s', us) ->
  (has_food_analysis s = true -> has_food_request s = true) ->
  has_food_analysis s' = true -> has_food_request s' = true.
Proof.
  apply (run_invariant
           (fun _ st => has_food_analysis st = true -> has_food_request st = true)).
  clear. intros n s i n' s' u H Inv. by_node H; try exact Inv.
  - unfold has_food_analysis, has_food_request in *.
    unfold human_node. destruct (Text.str_in _ _); simpl; [exact Inv|].
    intros Ha. specialize (Inv Ha). now rewrite Inv, andb_false_r.
  - unfold has_food_analysis. simpl. rewrite food_specialist_analysis. auto.
Qed.

Lemma analysis_implies_request_witness :
  exists n' s' us,
    run Trainer initial_state sample_inputs = Some (n', s', us)
    /\ has_food_analysis s' = true /\ has_food_request s' = true.
Proof.
  destruct (run Trainer initial_state sample_inputs) as [[[n' s'] us]|] eqn:E.
  - exists n', s', us. split; [reflexivity|].
    assert (Ha : has_food_analysis s' = true).
    { vm_compute in E. injection E as _ <- _. reflexivity. }
    split; [exact Ha|].
    apply (analysis_implies_request _ _ _ _ _ _ E); [discriminate | exact Ha].
  - vm_compute in E. discriminate E.
Defined.

(** A final recommendation is never stored in a session that is not
    complete: if the implication holds at the start of a run it holds at
    its end. *)
Theorem recommendation_implies_complete (n : Node) (s : State)
    (inputs : list Input) n' s' us :
  run n s inputs = Some (n', s', us) ->
  (has_final_recommendation s = true -> session_complete s = true) ->
  has_final_recommendation s' = true -> session_complete s' = true.
Proof.
  apply (run_invariant
           (fun _ st => has_final_recommendation st = true
                        -> session_complete st = true)).
  clear. intros n s i n' s' u H Inv. by_node H; try exact Inv.
  - intros Hf. apply human_node_session_complete. apply Inv.
    unfold has_final_recommendation in *. unfold human_node in Hf.
    destruct (Text.str_in _ _); exact Hf.
  - unfold has_final_recommendation. simpl.
    destruct (Text.opt_truthy (r_final_recommendation (trainer s x))); auto.
  - reflexivity.
Qed.

Lemma recommendation_implies_complete_witness :
  exists n' s' us,
    run Trainer initial_state sample_inputs = Some (n', s', us)
    /\ has_final_recommendation s' = true /\ session_complete s' = true.
Proof.
  destruct (run Trainer initial_state sample_inputs) as [[[n' s'] us]|] eqn:E.
  - exists n', s', us. split; [reflexivity|].
    assert (Hf : has_final_recommendation s' = true).
    { vm_compute in E. injection E as _ <- _. reflexivity. }
    split; [exact Hf|].
    apply (recommendation_implies_complete _ _ _ _ _ _ E); [discriminate | exact Hf].
  - vm_compute in E. discriminate E.
Defined.

(* ================================================================== *)
(** * The trainer and the language model *)
(* ================================================================== *)

Lemma trainer_without_reply_profile (s : State) now :
  user_profile (merge s (trainer_node s (trainer s None) now)) = user_profile s.
Proof.
  unfold trainer. destruct (trainer_branch s); try reflexivity.
  unfold _handle_profile_collection.
  destruct (profile_truthy (user_profile s)) eqn:E; simpl; now rewrite E.
Qed.

Lemma step_without_reply_profile (n : Node) (s : State) (i : Input) n' s' u :
  step n s i = Some (n', s', u) ->
  no_trainer_reply i = true ->
  user_profile s' = user_profile s.
Proof.
  intros H Hi. by_node H; try reflexivity.
  - unfold human_node. destruct (Text.str_in _ _); reflexivity.
  - destruct x as [reply|]; [discriminate|]. apply trainer_without_reply_profile.
Qed.

(** Profile entries come from replies of the language model only: over a
    run in which the trainer never gets a decoded reply, whatever the user
    types, the stored profile does not change. *)
Theorem profile_needs_reply (inputs : list Input) :
  forall n s n' s' us,
    run n s inputs = Some (n', s', us) ->
    forallb no_trainer_reply inputs = true ->
    user_profile s' = user_profile s.
Proof.
  induction inputs as [|i rest IH]; intros n s n' s' us H Hall.
  - simpl in H. now injection H as _ <- _.
  - apply run_cons_inv in H. destruct H as (n1 & s1 & u & us1 & Hs & Hr & _).
    simpl in Hall. apply andb_true_iff in Hall. destruct Hall as [Hi Hrest].
    rewrite (IH _ _ _ _ _ Hr Hrest).
    apply (step_without_reply_profile _ _ _ _ _ _ Hs Hi).
Qed.

Lemma profile_needs_reply_witness :
  forallb no_trainer_reply offline_inputs = true
  /\ exists n' s' us,
      run Trainer initial_state offline_inputs = Some (n', s', us)
      /\ user_profile s' = empty_profile.
Proof.
  split; [reflexivity|].
  destruct (run Trainer initial_state offline_inputs) as [[[n' s'] us]|] eqn:E.
  - exists n', s', us. split; [reflexivity|].
    apply (profile_needs_reply _ _ _ _ _ _ E). reflexivity.
  - vm_compute in E. discriminate E.
Defined.

Lemma offline_step (n : Node) (s : State) (i : Input) n' s' u :
  step n s i = Some (n', s', u) ->
  no_trainer_reply i = true ->
  user_profile s = empty_profile /\ profile_complete s = false /\ collecting n = true ->
  user_profile s' = empty_profile /\ profile_complete s' = false /\ collecting n' = true.
Proof.
  intros H Hi (Hp & Hc & Hn).
  pose proof (step_without_reply_profile _ _ _ _ _ _ H Hi) as Hp'.
  rewrite Hp in Hp'. split; [exact Hp'|].
  apply step_inv in H. destruct H as (Hu & -> & Hnext).
  destruct n; try discriminate Hn; simpl in Hnext.
  - (* human *)
    destruct i; try discriminate Hu. simpl in Hu. injection Hu as <-.
    assert (E : profile_complete (merge s (human_node s line now)) = false).
    { unfold human_node. destruct (Text.str_in _ _); exact Hc. }
    split; [exact E|]. injection Hnext as <-. unfold after_human.
    destruct (check_session_status _); reflexivity.
  - (* trainer *)
    destruct i as [| [reply|] now | | |]; try discriminate. simpl in Hu.
    injection Hu as <-.
    assert (E : profile_complete (merge s (trainer_node s (trainer s None) now)) = false).
    { unfold trainer, trainer_branch. rewrite Hc. simpl.
      destruct (Text.opt_truthy (food_request s) && negb (is_some (food_analysis s)));
        [exact Hc|].
      unfold _handle_profile_collection. rewrite Hp. exact Hc. }
    split; [exact E|]. apply pick_some in Hnext. subst n'.
    unfold after_trainer.
    destruct (session_complete _); [reflexivity|].
    destruct (awaiting_user_input _); [reflexivity|].
    unfold determine_next_agent. now rewrite E.
  - destruct i; try discriminate Hu. simpl in Hu. injection Hu as <-.
    split; [exact Hc|]. now injection Hnext as <-.
  - discriminate.
Qed.

(** With the language model unreachable a session cannot leave profile
    collection: from a state with an empty profile that is not complete,
    at any node but the two specialists, every run keeps the profile
    empty and not complete and never reaches the nutritionist or the food
    specialist. *)
Theorem offline_session_never_advances (inputs : list Input) :
  forall n s n' s' us,
    run n s inputs = Some (n', s', us) ->
    forallb no_trainer_reply inputs = true ->
    user_profile s = empty_profile ->
    profile_complete s = false ->
    collecting n = true ->
    user_profile s' = empty_profile /\ profile_complete s' = false
    /\ n' <> Nutritionist /\ n' <> FoodSpecialist.
Proof.
  assert (G : forall n s n' s' us,
             run n s inputs = Some (n', s', us) ->
             forallb no_trainer_reply inputs = true ->
             user_profile s = empty_profile /\ profile_complete s = false
             /\ collecting n = true ->
             user_profile s' = empty_profile /\ profile_complete s' = false
             /\ collecting n' = true).
  { induction inputs as [|i rest IH]; intros n s n' s' us H Hall Inv.
    - simpl in H. injection H as <- <- _. exact Inv.
    - apply run_cons_inv in H. destruct H as (n1 & s1 & u & us1 & Hs & Hr & _).
      simpl in Hall. apply andb_true_iff in Hall. destruct Hall as [Hi Hrest].
      apply (IH _ _ _ _ _ Hr Hrest). apply (offline_step _ _ _ _ _ _ Hs Hi Inv). }
  intros n s n' s' us H Hall Hp Hc Hn.
  destruct (G _ _ _ _ _ H Hall (conj Hp (conj Hc Hn))) as (A & B & C).
  repeat split; try assumption; intros ->; discriminate C.
Qed.

Lemma offline_session_never_advances_witness :
  exists n' s' us,
    run Trainer initial_state offline_inputs = Some (n', s', us)
    /\ profile_complete s' = false /\ n' <> Nutritionist.
Proof.
  destruct (run Trainer initial_state offline_inputs) as [[[n' s'] us]|] eqn:E.
  - exists n', s', us. split; [reflexivity|].
    destruct (offline_session_never_advances offline_inputs _ _ _ _ _ E
                eq_refl eq_refl eq_refl eq_refl) as (_ & A & B & _).
    split; assumption.
  - vm_compute in E. discriminate E.
Defined.

Lemma trainer_handover_step (s : State) llm now :
  profile_complete s = false -> has_food_request s = true ->
  has_food_analysis s = false -> session_complete s = false ->
  exists s' u,
    step Trainer s (InTrainer llm now) = Some (Trainer, s', u)
    /\ profile_complete s' = false /\ has_food_request s' = true
    /\ has_food_analysis s' = false /\ session_complete s' = false
    /\ awaiting_user_input s' = false
    /\ exists m, messages s' = messages s ++ [m] /\ handover_message m.
Proof.
  unfold has_food_request, has_food_analysis. intros Hp Hr Ha Hc.
  assert (Hb : trainer_branch s = FoodRequestDetected).
  { unfold trainer_branch. now rewrite Hp, Hr, Ha. }
  unfold step. simpl. unfold trainer. rewrite Hb. simpl.
  unfold after_trainer. simpl. rewrite Hc.
  unfold determine_next_agent. simpl. rewrite Hp. simpl.
  do 2 eexists. split; [reflexivity|]. simpl.
  repeat (split; [assumption || reflexivity|]).
  eexists. split; [reflexivity|]. split; reflexivity.
Qed.

(** A food request stored before the profile is complete traps the
    session in the trainer node.  From a state with [profile_complete]
    false, a food request and no analysis, every run stays at the trainer:
    each trainer step appends the hand-over message, clears
    [awaiting_user_input] and is routed to the trainer again, whatever the
    language model replies; the human node is never reached. *)
Theorem trainer_loops_on_early_food_request (inputs : list Input) :
  forall s,
    profile_complete s = false -> has_food_request s = true ->
    has_food_analysis s = false -> session_complete s = false ->
    (forall n' s' us,
        run Trainer s inputs = Some (n', s', us) ->
        n' = Trainer
        /\ List.length (messages s') = (List.length (messages s) + List.length inputs)%nat
        /\ profile_complete s' = false /\ session_complete s' = false)
    /\ (forallb for_trainer inputs = true ->
        exists s' us, run Trainer s inputs = Some (Trainer, s', us)).
Proof.
  induction inputs as [|i rest IH]; intros s Hp Hr Ha Hc.
  - split.
    + intros n' s' us H. simpl in H. injection H as <- <- _.
      repeat split; auto.
    + intros _. now exists s, [].
  - split.
    + intros n' s' us H.
      apply run_cons_inv in H. destruct H as (n1 & s1 & u & us1 & Hs & Hrun & _).
      destruct i; try (unfold step in Hs; simpl in Hs; discriminate Hs).
      destruct (trainer_handover_step s llm now Hp Hr Ha Hc)
        as (s2 & u2 & E & Hp2 & Hr2 & Ha2 & Hc2 & _ & m & Hm & _).
      rewrite E in Hs. injection Hs as <- <- <-.
      destruct (proj1 (IH s2 Hp2 Hr2 Ha2 Hc2) _ _ _ Hrun) as (-> & L & P & C).
      repeat split; auto. rewrite L, Hm, length_app. simpl. lia.
    + intros Hall. simpl in Hall. apply andb_true_iff in Hall.
      destruct Hall as [Hi Hrest]. destruct i; try discriminate Hi.
      destruct (trainer_handover_step s llm now Hp Hr Ha Hc)
        as (s2 & u2 & E & Hp2 & Hr2 & Ha2 & Hc2 & _).
      destruct (proj2 (IH s2 Hp2 Hr2 Ha2 Hc2) Hrest) as (s3 & us3 & E3).
      exists s3, (u2 :: us3). simpl. now rewrite E, E3.
Qed.

Lemma trainer_loops_on_early_food_request_witness :
  exists s' us,
    run Trainer early_food_state three_trainer_steps = Some (Trainer, s', us).
Proof.
  apply (proj2 (trainer_loops_on_early_food_request three_trainer_steps
                  early_food_state eq_refl eq_refl eq_refl eq_refl)).
  reflexivity.
Defined.

(* ================================================================== *)
(** * The nutritionist edge *)
(* ================================================================== *)

(** A meal-planning request cannot get past the nutritionist.  When the
    profile is complete and the last input contains a meal-planning
    keyword, the state the nutritionist node leaves makes
    [after_nutritionist] answer "nutritionist", which is not a key of the
    path map of that edge; the step has no next node.  (If the
    nutritionist raises there is no step either.) *)
Theorem meal_plan_request_has_no_route (s : State) llm now :
  profile_complete s = true ->
  is_meal_planning_request s = true ->
  (forall r, nutritionist s llm = Py.Ok r ->
             after_nutritionist (merge s (nutritionist_node s r now)) = Nutritionist)
  /\ ~ In Nutritionist nutritionist_targets
  /\ step Nutritionist s (InNutritionist llm now) = None.
Proof.
  intros Hp Hm.
  assert (A : forall r, nutritionist s llm = Py.Ok r ->
              after_nutritionist (merge s (nutritionist_node s r now)) = Nutritionist).
  { intros r Hr. unfold nutritionist in Hr.
    destruct (_calculate_basic_metrics (user_profile s)) as [b|]; [|discriminate].
    simpl in Hr. injection Hr as <-.
    match goal with |- after_nutritionist ?st = _ => set (s' := st) end.
    assert (Hp' : profile_complete s' = true) by exact Hp.
    assert (Hn' : is_some (nutrition_profile s') = true) by reflexivity.
    assert (Hm' : is_meal_planning_request s' = true) by exact Hm.
    unfold after_nutritionist, determine_next_agent.
    now rewrite Hp', Hn', Hm'. }
  split; [exact A|]. split.
  - simpl. intuition discriminate.
  - unfold step. simpl. destruct (nutritionist s llm) as [r|] eqn:E; [|reflexivity].
    unfold next_node. rewrite (A r eq_refl). reflexivity.
Qed.

Lemma meal_plan_request_has_no_route_witness :
  determine_next_agent plan_before_metrics_state = Nutritionist
  /\ step Nutritionist plan_before_metrics_state (InNutritionist None "t1") = None.
Proof.
  split; [reflexivity|].
  apply (meal_plan_request_has_no_route plan_before_metrics_state None "t1");
    reflexivity.
Defined.

(* ================================================================== *)
(** * From the food request to the verdict *)
(* ================================================================== *)

Lemma food_specialist_fills_analysis (s : State) llm :
  has_food_request s = true ->
  exists fa, f_food_analysis (food_specialist s llm) = Some (Some fa)
             /\ (llm = None ->
                 total_calories fa = 100%Q
                 /\ food_item fa = or_else (food_request s) ""%string).
Proof.
  unfold has_food_request, food_specialist. intros H. rewrite H. simpl.
  destruct llm; simpl; eexists; split; try reflexivity.
  - discriminate.
  - intros _. split; reflexivity.
Qed.

(** After the food specialist node the analysis is present exactly when
    a food request is stored: with a request it is always filled (by the
    reply or by the 100-calorie estimate), without one the node stores the
    empty analysis, replacing one that was there, and the language model
    is not consulted. *)
Theorem food_analysis_tracks_request (s : State) llm now :
  has_food_analysis (merge s (food_specialist_node s (food_specialist s llm) now))
  = has_food_request s
  /\ (has_food_request s = false ->
      food_specialist s llm = food_specialist s None
      /\ food_analysis (merge s (food_specialist_node s (food_specialist s llm) now))
         = None)
  /\ (has_food_request s = true ->
      exists fa,
        food_analysis (merge s (food_specialist_node s (food_specialist s llm) now))
        = Some fa
        /\ (llm = None -> total_calories fa = 100%Q)).
Proof.
  split; [|split].
  - unfold has_food_analysis. simpl. apply food_specialist_analysis.
  - unfold has_food_request, food_specialist. intros H. rewrite H. simpl. auto.
  - intros H. destruct (food_specialist_fills_analysis s llm H) as (fa & E & F).
    exists fa. simpl. rewrite E. split; [reflexivity|]. intros L. now apply F.
Qed.

Lemma food_analysis_tracks_request_witness :
  has_food_request food_requested_state = true
  /\ exists fa,
      food_analysis
        (merge food_requested_state
           (food_specialist_node food_requested_state
              (food_specialist food_requested_state None) "t5")) = Some fa
      /\ total_calories fa = 100%Q.
Proof.
  split; [reflexivity|].
  destruct (proj2 (proj2 (food_analysis_tracks_request food_requested_state None "t5"))
              eq_refl) as (fa & E & F).
  exists fa. split; [exact E | exact (F eq_refl)].
Defined.

(** With the profile complete, the nutrition profile present, a food
    request stored, no meal-planning keyword in the last input and no
    final recommendation yet, the food specialist node is always followed
    by the trainer, and the trainer then takes its final-recommendation
    branch. *)
Theorem analysis_leads_to_recommendation (s : State) llm now :
  profile_complete s = true -> has_nutrition_profile s = true ->
  is_meal_planning_request s = false -> has_food_request s = true ->
  has_final_recommendation s = false ->
  exists s' u,
    step FoodSpecialist s (InFoodSpecialist llm now) = Some (Trainer, s', u)
    /\ has_food_analysis s' = true
    /\ food_request_pending s' = false
    /\ trainer_branch s' = FinalRecommendation.
Proof.
  intros Hp Hn Hm Hr Hf.
  set (s' := merge s (food_specialist_node s (food_specialist s llm) now)).
  assert (Ha : has_food_analysis s' = true).
  { unfold s', has_food_analysis. simpl. rewrite food_specialist_analysis. exact Hr. }
  assert (Hp' : profile_complete s' = true) by exact Hp.
  assert (Hn' : is_some (nutrition_profile s') = true) by exact Hn.
  assert (Hm' : is_meal_planning_request s' = false) by exact Hm.
  assert (Hr' : Text.opt_truthy (food_request s') = true) by exact Hr.
  assert (Hf' : Text.str_truthy (final_recommendation s') = false) by exact Hf.
  assert (Hd : determine_next_agent s' = Trainer).
  { unfold determine_next_agent. unfold has_food_analysis in Ha.
    now rewrite Hp', Hn', Hm', Hr', Ha, Hf'. }
  exists s', (food_specialist_node s (food_specialist s llm) now).
  split.
  - unfold step. simpl. fold s'. unfold after_food_specialist. now rewrite Hd.
  - split; [exact Ha|]. split; [reflexivity|].
    unfold trainer_branch. unfold has_food_analysis in Ha.
    now rewrite Hp', Hn', Ha, Hf'.
Qed.

Lemma analysis_leads_to_recommendation_witness :
  exists s' u,
    step FoodSpecialist food_requested_state (InFoodSpecialist None "t5")
    = Some (Trainer, s', u)
    /\ trainer_branch s' = FinalRecommendation.
Proof.
  destruct (analysis_leads_to_recommendation food_requested_state None "t5"
              eq_refl eq_refl eq_refl eq_refl eq_refl) as (s' & u & E & _ & _ & B).
  exists s', u. split; assumption.
Defined.

Lemma thirty_percent (c t : Z) :
  Qle_bool (inject_Z c) (inject_Z t * (3 # 10)) = (10 * c <=? 3 * t).
Proof.
  unfold Qle_bool, Qmult, inject_Z. cbn [Qnum Qden].
  change (Z.pos (1 * 10)) with 10. change (Z.pos 1) with 1.
  destruct (Z.leb_spec (10 * c) (3 * t)); [apply Z.leb_le | apply Z.leb_gt]; lia.
Qed.

(** When everything is in place for the final recommendation and the
    language model cannot be reached, the trainer step still ends the
    session, provided the analysed total calories are a whole number [c]
    and the target [t] lies between 0 and 10^9: it stores a
    recommendation, sets [session_complete], goes to the completion node,
    and the verdict is "can eat" exactly when [10 * c <= 3 * t], that is
    when the calories are at most 30% of the target.  (On these values the
    comparison [food_cals <= target_cals * 0.3] of the code, made on
    doubles, and the exact one agree.) *)
Theorem offline_recommendation_completes (s : State) np fa now (c : Z) :
  profile_complete s = true ->
  nutrition_profile s = Some np -> food_analysis s = Some fa ->
  has_final_recommendation s = false ->
  total_calories fa = inject_Z c ->
  0 <= target_calories np <= 1000000000 ->
  exists s' u,
    step Trainer s (InTrainer None now) = Some (Completion, s', u)
    /\ session_complete s' = true
    /\ has_final_recommendation s' = true
    /\ can_eat_verdict s' = (10 * c <=? 3 * target_calories np)
    /\ List.length (messages s') = S (List.length (messages s)).
Proof.
  unfold has_final_recommendation. intros Hp Hn Ha Hf Hc Ht.
  assert (Hb : trainer_branch s = FinalRecommendation).
  { unfold trainer_branch. now rewrite Hp, Hn, Ha, Hf. }
  unfold step. simpl. unfold trainer. rewrite Hb.
  unfold _generate_final_recommendation. rewrite Hn, Ha. simpl.
  do 2 eexists. split; [reflexivity|]. simpl.
  rewrite Hc, thirty_percent.
  repeat split.
  unfold with_message. simpl. rewrite length_app. simpl. lia.
Qed.

Lemma offline_recommendation_completes_witness :
  exists s' u,
    step Trainer analysed_state (InTrainer None "t6") = Some (Completion, s', u)
    /\ can_eat_verdict s' = true.
Proof.
  destruct (offline_recommendation_completes analysed_state
              fallback_metrics
              {| food_item := "2 apples"; quantity := "2 apples";
                 calories_per_unit := 100; total_calories := 100;
                 macros := estimated_macros;
                 nutritional_notes :=
                   "Estimated nutritional content for 2 apples. Approximately 100 calories.";
                 health_impact :=
                   "Moderate caloric impact. Consider portion size and daily intake balance." |}
              "t6" 100 eq_refl eq_refl eq_refl eq_refl eq_refl
              ltac:(simpl; lia))
    as (s' & u & E & _ & _ & V & _).
  exists s', u. split; [exact E|]. rewrite V. reflexivity.
Defined.

(* ================================================================== *)
(** * Validation of the profile *)
(* ================================================================== *)

Lemma validate_age_fix (o : option Py.pyval) :
  entry_ok age_ok o = true -> and_then o validate_age = o.
Proof.
  destruct o as [[| | a | |]|]; simpl; try discriminate; [|reflexivity].
  intros H. unfold validate_age. simpl. now rewrite H.
Qed.

Lemma validate_measure_fix (lo hi : Q) (o : option Py.pyval) :
  entry_ok (fun v => match v with Py.PFloat x => in_range lo hi x | _ => false end) o
  = true ->
  and_then o (validate_measure lo hi) = o.
Proof.
  destruct o as [[| | | x |]|]; simpl; try discriminate; [|reflexivity].
  intros H. unfold validate_measure. simpl. now rewrite H.
Qed.

Lemma validate_first_meal_fix (o : option Py.pyval) :
  entry_ok first_meal_ok o = true -> and_then o validate_first_meal = o.
Proof. destruct o as [[| b | | |]|]; simpl; try discriminate; reflexivity. Qed.

Lemma validate_sex_fix (o : option Py.pyval) :
  entry_ok sex_ok o = true ->
  and_then o (validate_choice ["male"; "female"]%string) = o.
Proof.
  destruct o as [[| | | | s]|]; unfold entry_ok, sex_ok; try discriminate;
    [|reflexivity].
  intros H. apply str_in_iff in H. simpl in H.
  destruct H as [<- | [<- | []]]; reflexivity.
Qed.

Lemma validate_activity_fix (o : option Py.pyval) :
  entry_ok activity_ok o = true ->
  and_then o (validate_choice valid_levels) = o.
Proof.
  destruct o as [[| | | | s]|]; unfold entry_ok, activity_ok; try discriminate;
    [|reflexivity].
  intros H. apply str_in_iff in H. simpl in H.
  destruct H as [<- | [<- | [<- | [<- | [<- | []]]]]]; reflexivity.
Qed.

Lemma validate_valid_fix (p : UserProfile) :
  profile_valid p = true -> _validate_profile_data p = p.
Proof.
  unfold profile_valid. rewrite !andb_true_iff.
  intros (((((A1 & A2) & A3) & A4) & A5) & A6).
  destruct p as [a sx h w act fm]. unfold _validate_profile_data. simpl in *.
  rewrite (validate_age_fix _ A1), (validate_sex_fix _ A2),
    (validate_measure_fix 80 250 _ A3), (validate_measure_fix 20 400 _ A4),
    (validate_activity_fix _ A5), (validate_first_meal_fix _ A6).
  reflexivity.
Qed.

(** On a dictionary of JSON scalars with finite floats, whose height and
    weight, when they are integers, are within the range of a double (so
    that [float()] does not raise [OverflowError]), what
    [_validate_profile_data] returns passes its own checks (age an integer
    in 1..120, sex male or female, height in 80..250, weight in 20..400,
    one of the five activity levels, a boolean for first meal), and
    validating it again changes nothing. *)
Theorem validate_profile_data_idempotent (raw : UserProfile) :
  fits_double (height_cm raw) = true ->
  fits_double (weight_kg raw) = true ->
  profile_valid (_validate_profile_data raw) = true
  /\ _validate_profile_data (_validate_profile_data raw) = _validate_profile_data raw.
Proof.
  intros _ _. split; [apply validate_profile_valid|].
  apply validate_valid_fix, validate_profile_valid.
Qed.

Lemma validate_profile_data_idempotent_witness :
  profile_valid (_validate_profile_data zero_height_profile) = true
  /\ _validate_profile_data (_validate_profile_data zero_height_profile)
     = _validate_profile_data zero_height_profile.
Proof.
  apply (validate_profile_data_idempotent zero_height_profile); reflexivity.
Defined.

Lemma profile_get_overlay (current cleaned : UserProfile) (field : string) :
  profile_get (overlay current cleaned) field
  = first_some (profile_get cleaned field) (profile_get current field).
Proof.
  unfold profile_get, overlay. simpl.
  repeat match goal with |- context [String.eqb field ?k] =>
           destruct (String.eqb field k); [reflexivity|] end.
  reflexivity.
Qed.

(** Profile collection never loses what is stored.  Whatever the language
    model replies (or if it fails), the profile [_handle_profile_collection]
    returns holds every key the stored profile held; a key whose new value
    fails validation keeps the stored value; and if the stored profile
    passed the checks, so does the returned one. *)
Theorem profile_collection_keeps_entries (state : State) (user_input : string)
    (current : UserProfile) (llm : option TrainerResult) (p' : UserProfile) :
  r_user_profile (_handle_profile_collection state user_input current llm)
  = Some p' ->
  (forall field, is_some (profile_get current field) = true ->
                 is_some (profile_get p' field) = true)
  /\ (forall result raw field,
        llm = Some result -> r_user_profile result = Some raw ->
        profile_get (_validate_profile_data raw) field = None ->
        profile_get p' field = profile_get current field)
  /\ (profile_valid current = true -> profile_valid p' = true).
Proof.
  unfold _handle_profile_collection.
  destruct llm as [result|].
  - destruct (r_user_profile result) as [raw|] eqn:E.
    + simpl. intros H. injection H as <-. split; [|split].
      * intros field Hc. rewrite profile_get_overlay.
        destruct (profile_get (_validate_profile_data raw) field); [reflexivity|].
        exact Hc.
      * intros result0 raw0 field Hr Hraw Hnone.
        injection Hr as <-. rewrite E in Hraw. injection Hraw as <-.
        rewrite profile_get_overlay. now rewrite Hnone.
      * intros Hv. apply overlay_valid; [exact Hv | apply validate_profile_valid].
    + intros H. rewrite E in H. discriminate H.
  - assert (H0 : forall r, r_user_profile r = Some current ->
                           r_user_profile r = Some p' -> current = p')
      by (intros r A B; congruence).
    intros H.
    assert (E : current = p').
    { destruct (negb (profile_truthy current)); simpl in H; congruence. }
    subst p'. split; [auto|]. split; [discriminate | auto].
Qed.

Lemma profile_collection_keeps_entries_witness :
  r_user_profile
    (_handle_profile_collection partial_state (current_user_input partial_state)
       partial_profile (Some mixed_reply))
  = Some {| age := Some (Py.PInt 30); sex := Some (Py.PStr "female");
            height_cm := Some (Py.PFloat 168); weight_kg := None;
            activity_level := None; first_meal := None |}
  /\ is_some (profile_get
                {| age := Some (Py.PInt 30); sex := Some (Py.PStr "female");
                   height_cm := Some (Py.PFloat 168); weight_kg := None;
                   activity_level := None; first_meal := None |} "age") = true.
Proof.
  split; [reflexivity|].
  apply (proj1 (profile_collection_keeps_entries partial_state
                  (current_user_input partial_state) partial_profile
                  (Some mixed_reply) _ eq_refl) "age"%string).
  reflexivity.
Defined.

(* ================================================================== *)
(** * What the nutritionist can raise and what it returns *)
(* ================================================================== *)

Lemma squared_height_zero (h : Q) :
  Qeq_bool (h / 100 * (h / 100)) 0 = true <-> h == 0.
Proof.
  rewrite Qeq_bool_iff. split.
  - intros H. apply Qmult_integral in H.
    assert (G : h / 100 == 0) by (destruct H; assumption).
    unfold Qdiv in G. apply Qmult_integral in G.
    destruct G as [G | G]; [exact G | discriminate G].
  - intros H. rewrite H. reflexivity.
Qed.

(** On a profile whose weight, height and age are integers of at most
    six digits, [_calculate_basic_metrics] raises nothing but
    [ZeroDivisionError], and raises it exactly when the height is zero and
    the sex and the activity level are present.  (Within these bounds no
    conversion and no operation on doubles overflows or underflows, and a
    quotient or a square is zero only if the height is.) *)
Theorem calculate_basic_metrics_raises (p : UserProfile) (w h a : Z) :
  weight_kg p = Some (Py.PInt w) -> height_cm p = Some (Py.PInt h) ->
  age p = Some (Py.PInt a) ->
  Z.abs w <= 1000000 -> Z.abs h <= 1000000 -> Z.abs a <= 1000000 ->
  (forall e, _calculate_basic_metrics p = Py.Raise e -> e = Py.ZeroDivisionError)
  /\ (_calculate_basic_metrics p = Py.Raise Py.ZeroDivisionError <->
      h = 0 /\ is_some (sex p) = true /\ is_some (activity_level p) = true).
Proof.
  intros Ew Eh Ea _ _ _.
  assert (Hz : Qeq_bool (inject_Z h / 100 * (inject_Z h / 100)) 0 = true <-> h = 0).
  { rewrite squared_height_zero. split.
    - intros H. unfold Qeq in H. simpl in H. lia.
    - now intros ->. }
  unfold _calculate_basic_metrics, basic_metrics_body.
  rewrite Ew, Eh, Ea. simpl.
  destruct (sex p) as [sx|]; simpl.
  2:{ split; [discriminate|]. split; [discriminate|]. intros (_ & H & _). discriminate H. }
  destruct (activity_level p) as [act|]; simpl.
  2:{ split; [discriminate|]. split; [discriminate|]. intros (_ & _ & H). discriminate H. }
  unfold divide.
  destruct (Qeq_bool (inject_Z h / 100 * (inject_Z h / 100)) 0) eqn:Z0; simpl.
  - split; [intros e H; now injection H as <-|].
    split; [intros _|reflexivity]. split; [now apply Hz | auto].
  - split; [discriminate|]. split; [discriminate|].
    intros (H & _). apply Hz in H. congruence.
Qed.

Lemma calculate_basic_metrics_raises_witness :
  _calculate_basic_metrics zero_height_profile = Py.Raise Py.ZeroDivisionError.
Proof.
  apply (proj2 (calculate_basic_metrics_raises zero_height_profile 70 0 30
                  eq_refl eq_refl eq_refl
                  ltac:(simpl; lia) ltac:(simpl; lia) ltac:(simpl; lia))).
  repeat split.
Defined.

(** The language model cannot change the numbers.  Whatever it replies,
    [nutritionist] raises exactly when [_calculate_basic_metrics] does,
    and otherwise returns a message and a nutrition profile equal to the
    calculated one in everything but [health_assessment]; without a reply
    the assessment is the canned text for the BMI class. *)
Theorem nutritionist_keeps_metrics (s : State) (llm : option NutritionistReply) :
  (forall e, _calculate_basic_metrics (user_profile s) = Py.Raise e ->
             nutritionist s llm = Py.Raise e)
  /\ (forall basic,
        _calculate_basic_metrics (user_profile s) = Py.Ok basic ->
        exists msg np,
          nutritionist s llm
          = Py.Ok {| n_message := Some msg; n_nutrition_profile := Some (Some np) |}
          /\ set_health_assessment np "" = set_health_assessment basic ""
          /\ 1200 <= target_calories np
          /\ (llm = None ->
              health_assessment np = fallback_health_msg (bmi_class basic))).
Proof.
  unfold nutritionist. split.
  - intros e E. now rewrite E.
  - intros basic E. rewrite E. simpl.
    pose proof (target_at_least_1200 _ _ E) as T.
    destruct llm as [reply|]; simpl.
    + do 2 eexists. split; [reflexivity|].
      destruct (nr_health_assessment reply); simpl;
        repeat split; try exact T; try discriminate.
    + do 2 eexists. split; [reflexivity|]. repeat split. exact T.
Qed.

Lemma nutritionist_keeps_metrics_witness :
  exists msg np,
    nutritionist plan_before_metrics_state None
    = Py.Ok {| n_message := Some msg; n_nutrition_profile := Some (Some np) |}
    /\ target_calories np = 2056.
Proof.
  destruct (_calculate_basic_metrics (user_profile plan_before_metrics_state))
    as [basic|] eqn:E; [|vm_compute in E; discriminate E].
  destruct (proj2 (nutritionist_keeps_metrics plan_before_metrics_state None) basic E)
    as (msg & np & R & S & _).
  exists msg, np. split; [exact R|].
  change (target_calories np) with (target_calories (set_health_assessment np "")).
  rewrite S. vm_compute in E. injection E as <-. reflexivity.
Defined.

(* ================================================================== *)
(** * More on the string builtins *)
(* ================================================================== *)

Lemma lower_ascii_idempotent (c : ascii) :
  Text.lower_ascii (Text.lower_ascii c) = Text.lower_ascii c.
Proof. destruct c as [[] [] [] [] [] [] [] []]; reflexivity. Qed.

Lemma lower_idempotent (s : string) : Text.lower (Text.lower s) = Text.lower s.
Proof.
  induction s as [|c s IH]; simpl; [reflexivity|].
  now rewrite lower_ascii_idempotent, IH.
Qed.

Lemma lower_app (a b : string) :
  Text.lower (a ++ b) = (Text.lower a ++ Text.lower b)%string.
Proof. induction a as [|c a IH]; simpl; [reflexivity | now rewrite IH]. Qed.

Lemma str_app_assoc (a b c : string) : ((a ++ b) ++ c = a ++ (b ++ c))%string.
Proof. induction a as [|x a IH]; simpl; [reflexivity | now rewrite IH]. Qed.

Lemma occurs_in_context (p x a b : string) :
  Text.occurs_in p x -> Text.occurs_in p (a ++ x ++ b).
Proof.
  intros (c & d & ->). exists (a ++ c)%string, (d ++ b)%string.
  now rewrite !str_app_assoc.
Qed.

Lemma lstrip_fix (s : string) : starts_blank s = false -> Text.lstrip s = s.
Proof. destruct s; simpl; [reflexivity|]. now intros ->. Qed.

Lemma lstrip_starts (s : string) : starts_blank (Text.lstrip s) = false.
Proof.
  induction s as [|c s IH]; simpl; [reflexivity|].
  destruct (Text.is_space c) eqn:E; [exact IH | simpl; exact E].
Qed.

Lemma rstrip_starts (s : string) :
  starts_blank s = false -> starts_blank (Text.rstrip s) = false.
Proof.
  destruct s as [|c s]; simpl; [reflexivity|]. intros E.
  destruct (Text.rstrip s); [rewrite E|]; simpl; auto.
Qed.

Lemma rstrip_idempotent (s : string) : Text.rstrip (Text.rstrip s) = Text.rstrip s.
Proof.
  induction s as [|c s IH]; simpl; [reflexivity|].
  destruct (Text.rstrip s) as [|d r] eqn:E.
  - destruct (Text.is_space c) eqn:Ec; simpl; [reflexivity | now rewrite Ec].
  - change (Text.rstrip (String c (String d r))) with
      (match Text.rstrip (String d r) with
       | EmptyString => if Text.is_space c then EmptyString else String c EmptyString
       | r' => String c r'
       end).
    now rewrite IH.
Qed.

Lemma strip_idempotent (s : string) : Text.strip (Text.strip s) = Text.strip s.
Proof.
  unfold Text.strip.
  rewrite (lstrip_fix (Text.rstrip (Text.lstrip s))).
  - apply rstrip_idempotent.
  - apply rstrip_starts, lstrip_starts.
Qed.

(* ================================================================== *)
(** * More on the classification of the input *)
(* ================================================================== *)

(** The classification looks for substrings only, so nothing around a
    food request takes the classification away, and case does not matter:
    if [x] is classified as a food request, so is [a ++ x ++ b] for every
    [a] and [b], and [x] is classified exactly when its lowercased form is. *)
Theorem food_request_survives_context (x : string) :
  is_food_request (Text.lower x) = is_food_request x
  /\ (is_food_request x = true ->
      forall a b, is_food_request (a ++ x ++ b) = true).
Proof.
  split.
  - unfold is_food_request. now rewrite lower_idempotent.
  - intros H a b. apply is_food_request_iff. apply is_food_request_iff in H.
    rewrite !lower_app.
    destruct H as [[(p & Hp & Op) (f & Hf & Of)] | (n & f & Hn & Hf & O)].
    + left. split; [exists p | exists f]; split; try assumption;
        now apply occurs_in_context.
    + right. exists n, f. repeat split; try assumption.
      now apply occurs_in_context.
Qed.

Lemma food_request_survives_context_witness :
  is_food_request "2 apples" = true
  /\ is_food_request ("I will never have " ++ "2 apples" ++ " again") = true.
Proof.
  split; [reflexivity|].
  apply (proj2 (food_request_survives_context "2 apples")). reflexivity.
Defined.

(* ================================================================== *)
(** * More on the food catalogue *)
(* ================================================================== *)


Lemma digits_value_nonneg (s : string) :
  forall acc q, 0 <= acc -> Py.digits_value acc s = Some q -> 0 <= q.
Proof.
  induction s as [|c r IH]; simpl; intros acc q Hacc H.
  - now injection H as <-.
  - destruct (Text.is_digit c); [|discriminate].
    apply (IH (10 * acc + Z.of_nat (nat_of_ascii c - 48)) q); [lia | exact H].
Qed.



(** The lookup does not depend on the case of the name or on blanks
    around the query, and a parsed quantity is never negative (a minus
    sign in front makes the pattern fail, so the quantity is 1). *)
Theorem lookup_ignores_case_and_padding (items : list FoodDB.Item) (text : string) :
  FoodDB.find_match items (Text.lower text) = FoodDB.find_match items text
  /\ FoodDB.calories_for items (Text.strip text) = FoodDB.calories_for items text
  /\ 0 <= fst (FoodDB.parse_query text).
Proof.
  split; [|split].
  - unfold FoodDB.find_match. now rewrite lower_idempotent.
  - unfold FoodDB.calories_for, FoodDB.parse_query. now rewrite strip_idempotent.
  - unfold FoodDB.parse_query.
    destruct (FoodDB.match_quantity (Text.strip text)) as [[q name]|] eqn:E;
      simpl; [|lia].
    apply match_quantity_sound in E.
    destruct E as (lead & ds & ws & r & _ & _ & _ & N & _).
    unfold Py.nat_literal in N. destruct ds; [discriminate|].
    apply (digits_value_nonneg _ 0 q (Z.le_refl 0) N).
Qed.

(* ================================================================== *)
(** * Between the specialists and the user *)
(* ================================================================== *)

Lemma step_eq (n : Node) (s : State) (i : Input) (u : Update) (n' : Node) :
  node_update n s i = Some u ->
  next_node n (merge s u) = Some n' ->
  step n s i = Some (n', merge s u, u).
Proof. unfold step. now intros -> ->. Qed.

(** After the metrics the session turns to the food: with the profile
    complete, no meal-planning keyword in the last input, no analysis yet
    and [awaiting_food_request] false, a nutritionist step that does not
    raise stores a nutrition profile and is followed by the food
    specialist when a food request is already stored, by the trainer (who
    then asks for a food) when none is. *)
Theorem metrics_lead_to_food (s : State) llm now r :
  profile_complete s = true -> is_meal_planning_request s = false ->
  has_food_analysis s = false -> awaiting_food_request s = false ->
  nutritionist s llm = Py.Ok r ->
  exists s' u,
    step Nutritionist s (InNutritionist llm now)
    = Some (if has_food_request s then FoodSpecialist else Trainer, s', u)
    /\ has_nutrition_profile s' = true
    /\ (has_food_request s = false -> trainer_branch s' = AskForFood).
Proof.
  intros Hp Hm Ha Hw Hr.
  set (s' := merge s (nutritionist_node s r now)).
  assert (Hn' : is_some (nutrition_profile s') = true).
  { unfold nutritionist in Hr.
    destruct (_calculate_basic_metrics (user_profile s)); [|discriminate].
    simpl in Hr. injection Hr as <-. reflexivity. }
  assert (Hp' : profile_complete s' = true) by exact Hp.
  assert (Hm' : is_meal_planning_request s' = false) by exact Hm.
  assert (Ha' : is_some (food_analysis s') = false) by exact Ha.
  assert (Hw' : awaiting_food_request s' = false) by exact Hw.
  assert (Hr' : Text.opt_truthy (food_request s') = has_food_request s) by reflexivity.
  assert (Hd : determine_next_agent s'
               = if has_food_request s then FoodSpecialist else Trainer).
  { unfold determine_next_agent. rewrite Hp', Hn', Hm', Hr', Ha', Hw'. simpl.
    destruct (has_food_request s); reflexivity. }
  exists s', (nutritionist_node s r now). split; [|split].
  - apply step_eq; [simpl; now rewrite Hr|]. fold s'.
    unfold next_node, after_nutritionist.
    rewrite Hd. destruct (has_food_request s); reflexivity.
  - exact Hn'.
  - intros Hf. unfold trainer_branch. rewrite Hp', Hn', Ha', Hr', Hf. reflexivity.
Qed.

Lemma metrics_lead_to_food_witness :
  exists r s' u,
    nutritionist ready_for_food_state None = Py.Ok r
    /\ step Nutritionist ready_for_food_state (InNutritionist None "t1")
       = Some (Trainer, s', u).
Proof.
  destruct (nutritionist ready_for_food_state None) as [r|] eqn:E;
    [|vm_compute in E; discriminate E].
  destruct (metrics_lead_to_food ready_for_food_state None "t1" r
              eq_refl eq_refl eq_refl eq_refl E) as (s' & u & S & _).
  exists r, s', u. split; [reflexivity | exact S].
Defined.

(** Only a classified input gets a food analysed.  With the profile
    complete, the nutrition profile present and neither request nor
    analysis stored, an input that is no termination token and is not
    classified as a food request leaves [food_request] unset; the trainer
    then asks for a food again and the session waits at the human node,
    whatever the language model would say. *)
Theorem unclassified_input_is_asked_again (s : State) line now llm now' :
  profile_complete s = true -> has_nutrition_profile s = true ->
  has_food_request s = false -> has_food_analysis s = false ->
  session_complete s = false ->
  ~ In (Text.lower (Text.strip line)) exit_tokens ->
  is_food_request (Text.strip line) = false ->
  exists s' us,
    run Human s [InHuman line now; InTrainer llm now'] = Some (Human, s', us)
    /\ has_food_request s' = false
    /\ awaiting_user_input s' = true
    /\ List.length (messages s') = (List.length (messages s) + 2)%nat.
Proof.
  unfold has_nutrition_profile, has_food_request, has_food_analysis.
  intros Hp Hn Hr Ha Hc Hx Hf.
  assert (Hb : Text.str_in (Text.lower (Text.strip line)) exit_tokens = false).
  { destruct (Text.str_in _ _) eqn:E; [|reflexivity].
    apply str_in_iff in E. contradiction. }
  set (s1 := merge s (human_node s line now)).
  assert (F1 : food_request s1 = food_request s).
  { unfold s1. rewrite (human_node_continue s line now Hb). simpl. now rewrite Hf. }
  assert (M1 : messages s1
               = messages s ++ [{| role := "user"; content := Text.strip line;
                                    timestamp := now |}]).
  { unfold s1. now rewrite (human_node_continue s line now Hb). }
  assert (P1 : profile_complete s1 = true).
  { unfold s1. now rewrite (human_node_continue s line now Hb). }
  assert (N1 : is_some (nutrition_profile s1) = true).
  { unfold s1. now rewrite (human_node_continue s line now Hb). }
  assert (A1 : is_some (food_analysis s1) = false).
  { unfold s1. now rewrite (human_node_continue s line now Hb). }
  assert (C1 : session_complete s1 = false).
  { unfold s1. rewrite (human_node_continue s line now Hb). exact Hc. }
  assert (E1 : step Human s (InHuman line now)
               = Some (Trainer, s1, human_node s line now)).
  { apply step_eq; [reflexivity|]. fold s1. unfold next_node, after_human,
      check_session_status. now rewrite C1. }
  clearbody s1.
  assert (B1 : trainer_branch s1 = AskForFood).
  { unfold trainer_branch. now rewrite P1, N1, A1, F1, Hr. }
  set (s2 := merge s1 (trainer_node s1 (trainer s1 llm) now')).
  assert (T : trainer s1 llm = _ask_for_food_request s1)
    by (unfold trainer; now rewrite B1).
  assert (C2 : session_complete s2 = false)
    by (unfold s2; rewrite T; exact C1).
  assert (W2 : awaiting_user_input s2 = true) by (unfold s2; now rewrite T).
  assert (E2 : step Trainer s1 (InTrainer llm now')
               = Some (Human, s2, trainer_node s1 (trainer s1 llm) now')).
  { apply step_eq; [reflexivity|]. fold s2. unfold next_node, after_trainer.
    now rewrite C2, W2. }
  assert (F2 : food_request s2 = food_request s1) by (unfold s2; now rewrite T).
  assert (M2 : exists m, messages s2 = messages s1 ++ [m]).
  { unfold s2. rewrite T. eexists. reflexivity. }
  clearbody s2.
  exists s2, [human_node s line now; trainer_node s1 (trainer s1 llm) now'].
  split; [|split; [|split]].
  - unfold run. rewrite E1, E2. reflexivity.
  - now rewrite F2, F1.
  - exact W2.
  - destruct M2 as [m M2]. rewrite M2, length_app, M1, length_app. simpl. lia.
Qed.

Lemma unclassified_input_is_asked_again_witness :
  exists s' us,
    run Human ready_for_food_state [InHuman "an apple, please" "t1"; InTrainer None "t2"]
    = Some (Human, s', us)
    /\ has_food_request s' = false.
Proof.
  destruct (unclassified_input_is_asked_again ready_for_food_state
              "an apple, please" "t1" None "t2"
              eq_refl eq_refl eq_refl eq_refl eq_refl)
    as (s' & us & R & F & _).
  - vm_compute. intuition discriminate.
  - reflexivity.
  - exists s', us. split; assumption.
Defined.

(** A reply that leaves out [awaiting_user_input] does not suspend the
    session.  During profile collection (profile not complete, no food
    request), a decoded reply without [user_profile] (so that nothing is
    validated and nothing can raise), without [awaiting_user_input],
    without a final recommendation and without [profile_complete = true]
    sends the session straight back to the trainer: the default of the
    missing key is [False] and the human node is skipped. *)
Theorem reply_without_awaiting_reruns_trainer (s : State) reply now :
  profile_complete s = false -> has_food_request s = false ->
  session_complete s = false ->
  r_user_profile reply = None ->
  r_awaiting_user_input reply = None ->
  Text.opt_truthy (r_final_recommendation reply) = false ->
  or_else (r_profile_complete reply) false = false ->
  exists s' u,
    step Trainer s (InTrainer (Some reply) now) = Some (Trainer, s', u)
    /\ awaiting_user_input s' = false
    /\ profile_complete s' = false.
Proof.
  unfold has_food_request. intros Hp Hr Hc Hu Hw Hf Hpc.
  assert (Hb : trainer_branch s = ProfileCollection).
  { unfold trainer_branch. now rewrite Hp, Hr. }
  set (res := trainer s (Some reply)).
  assert (R0 : res = reply).
  { unfold res, trainer. rewrite Hb. unfold _handle_profile_collection.
    now rewrite Hu. }
  assert (R1 : r_awaiting_user_input res = None) by now rewrite R0.
  assert (R2 : Text.opt_truthy (r_final_recommendation res) = false)
    by now rewrite R0.
  assert (R3 : or_else (r_profile_complete res) false = false) by now rewrite R0.
  set (s' := merge s (trainer_node s res now)).
  assert (P' : profile_complete s' = false).
  { unfold s'. simpl. destruct (opt_profile_truthy (r_user_profile res)); simpl;
      [exact R3 | exact Hp]. }
  assert (C' : session_complete s' = false).
  { unfold s'. simpl. rewrite R2. exact Hc. }
  assert (W' : awaiting_user_input s' = false).
  { unfold s'. simpl. now rewrite R1. }
  exists s', (trainer_node s res now). split; [|split; assumption].
  apply step_eq; [reflexivity|]. fold res. fold s'. unfold next_node, after_trainer.
  rewrite C', W'. unfold determine_next_agent. rewrite P'. reflexivity.
Qed.

Lemma reply_without_awaiting_reruns_trainer_witness :
  exists s' u,
    step Trainer greeted_state (InTrainer (Some vague_reply) "t1")
    = Some (Trainer, s', u).
Proof.
  destruct (reply_without_awaiting_reruns_trainer greeted_state vague_reply "t1"
              eq_refl eq_refl eq_refl eq_refl eq_refl eq_refl eq_refl)
    as (s' & u & S & _).
  exists s', u. exact S.
Defined.

(* ================================================================== *)
(** * Rounding of the calories *)
(* ================================================================== *)

Lemma two_power (p : positive) : ((2 ^ Zneg p)%Q == / inject_Z (2 ^ Zpos p))%Q.
Proof.
  change (Zneg p) with (- Zpos p). rewrite Qpower_opp.
  apply Qinv_comp. symmetry. apply (Zpower_Qpower 2 (Zpos p)). lia.
Qed.

(** [nearest_even m e] is within one half of [m * 2^e]. *)
Lemma nearest_even_within_half (m e : Z) :
  0 <= m ->
  (inject_Z (F64.nearest_even m e) - inject_Z m * 2 ^ e <= 1 # 2)%Q
  /\ (inject_Z m * 2 ^ e - inject_Z (F64.nearest_even m e) <= 1 # 2)%Q.
Proof.
  intros Hm. unfold F64.nearest_even. destruct e as [|p|p].
  - simpl. rewrite Z.mul_1_r. split; ring_simplify; discriminate.
  - assert (E : (inject_Z (m * 2 ^ Zpos p) == inject_Z m * 2 ^ Zpos p)%Q).
    { rewrite inject_Z_mult. apply Qmult_comp; [reflexivity|].
      apply (Zpower_Qpower 2 (Zpos p)). lia. }
    rewrite E. split; ring_simplify; discriminate.
  - rewrite two_power.
    set (d := 2 ^ Zpos p).
    assert (Hd : 0 < d) by (apply Z.pow_pos_nonneg; lia).
    pose proof (Z.div_mod m d ltac:(lia)) as Em.
    pose proof (Z.mod_pos_bound m d Hd) as Hr.
    set (q := m / d) in *. set (r := m mod d) in *. clearbody q r d.
    assert (Hq : forall k : Z,
               - d <= 2 * (k * d - m) <= d ->
               (inject_Z k - inject_Z m * / inject_Z d <= 1 # 2)%Q
               /\ (inject_Z m * / inject_Z d - inject_Z k <= 1 # 2)%Q).
    { intros k Hk. unfold Qle, Qminus, Qplus, Qmult, Qopp, Qinv, inject_Z. simpl.
      destruct d as [|dp|dp]; try lia. simpl. nia. }
    destruct (2 * r ?= d) eqn:C.
    + apply Z.compare_eq in C. destruct (Z.even q); apply Hq; nia.
    + rewrite Z.compare_lt_iff in C. apply Hq. nia.
    + rewrite Z.compare_gt_iff in C. apply Hq. nia.
Qed.

(** [round] on a double returns an integer within one half of it. *)
Lemma f64_round_within_half (x : F64.t) (c : Z) :
  F64.round x = Py.Ok c ->
  (inject_Z c - F64.to_Q x <= 1 # 2)%Q /\ (F64.to_Q x - inject_Z c <= 1 # 2)%Q.
Proof.
  destruct x as [s | s | | s m e]; simpl; try discriminate.
  - intros H. injection H as <-. split; discriminate.
  - intros H. injection H as <-.
    destruct (nearest_even_within_half (Zpos m) e ltac:(lia)) as [A B].
    destruct s; simpl; [|split; assumption].
    change (Zneg m) with (- Zpos m). rewrite !inject_Z_opp.
    split; [lra | lra].
Qed.

(** The calories [calories_for] returns are the product of the quantity
    and the per-unit calories, taken on doubles, rounded to the nearest
    integer: they differ from that product by at most one half, and are
    equal to it when it is a whole number. *)
Theorem calories_within_half (items : list FoodDB.Item) (text : string)
    (c : Z) (n : string) :
  FoodDB.calories_for items text = Py.Ok (Some (c, n)) ->
  exists m per_unit product,
    FoodDB.find_match items (snd (FoodDB.parse_query text)) = Some m
    /\ Json.float (FoodDB.calories_entry m) = Py.Ok per_unit
    /\ F64.int_mul (fst (FoodDB.parse_query text)) per_unit = Py.Ok product
    /\ (inject_Z c - F64.to_Q product <= 1 # 2)%Q
    /\ (F64.to_Q product - inject_Z c <= 1 # 2)%Q
    /\ (forall k, (F64.to_Q product == inject_Z k)%Q -> c = k).
Proof.
  intros H. apply calories_for_some in H.
  destruct H as (m & x & product & Hm & F & P & R & _).
  apply find_match_first in Hm.
  exists m, x, product. repeat (split; [assumption|]).
  destruct (f64_round_within_half _ _ R) as [A B].
  split; [exact A|]. split; [exact B|].
  intros k Hk. rewrite Hk in A, B.
  unfold Qle, Qminus, Qplus, Qopp, inject_Z in A, B. simpl in A, B. lia.
Qed.

Lemma calories_within_half_witness :
  exists m per_unit product,
    FoodDB.find_match [banana] (snd (FoodDB.parse_query "3 banana")) = Some m
    /\ Json.float (FoodDB.calories_entry m) = Py.Ok per_unit
    /\ F64.int_mul (fst (FoodDB.parse_query "3 banana")) per_unit = Py.Ok product
    /\ (inject_Z 267 - F64.to_Q product <= 1 # 2)%Q.
Proof.
  destruct (calories_within_half [banana] "3 banana" 267 "banana" eq_refl)
    as (m & x & product & A & B & C & D & _).
  exists m, x, product. repeat split; assumption.
Defined.

(* ================================================================== *)
(** * What the lookup raises *)
(* ================================================================== *)




